(** * archipack_snap: the snap-point helper of Archipack

    A shallow embedding of [archipack_snap.py].  The module is a thin layer
    over the host 3D application: a process-wide store of snap parameters
    ([SnapStore]), a session controller that saves and restores the user
    interface state around a drag ([ArchipackSnapBase]), a modal operator
    ([ARCHIPACK_OT_snap]) and the entry function [snap_point].

    The program state is threaded explicitly: a [World] holds the module's
    global store together with the part of the host state the module reads
    and writes.  Python exceptions do not roll the state back, so an
    outcome carries the world reached when the exception was raised. *)

From Stdlib Require Import ZArith String List Bool Lia.
From stdpp Require Import base list strings.
Import ListNotations.

Local Open Scope Z_scope.

(** ** mathutils: vectors and matrices

    Components are exact numbers; the rounding of the host's floating-point
    components is outside this model. *)

Record Vector := Vec { vx : Z; vy : Z; vz : Z }.

Definition vsub (a b : Vector) : Vector :=
  Vec (vx a - vx b) (vy a - vy b) (vz a - vz b).

(** [Vector((0, 0, 0))] *)
Definition vzero : Vector := Vec 0 0 0.

Definition Row : Type := (Z * Z * Z * Z)%type.

Record Matrix := Mat { row0 : Row; row1 : Row; row2 : Row; row3 : Row }.

(** [Matrix()] is the 4x4 identity. *)
Definition Matrix_identity : Matrix :=
  Mat (1, 0, 0, 0) (0, 1, 0, 0) (0, 0, 1, 0) (0, 0, 0, 1).

(** [Matrix.Translation(v)]: the identity with [v] in the last column. *)
Definition Matrix_Translation (v : Vector) : Matrix :=
  Mat (1, 0, 0, vx v) (0, 1, 0, vy v) (0, 0, 1, vz v) (0, 0, 0, 1).

(** [m.translation]: the first three entries of the last column. *)
Definition translation (m : Matrix) : Vector :=
  Vec (snd (row0 m)) (snd (row1 m)) (snd (row2 m)).

(** ** Enumerations and hooks *)

(** [transform_orientation in ['GLOBAL', 'LOCAL', 'NORMAL', 'GIMBAL', 'VIEW']] *)
Inductive Orientation := GLOBAL | LOCAL | NORMAL | GIMBAL | VIEW.

(** [state in {'SUCCESS', 'CANCEL'}] *)
Inductive State := SUCCESS | CANCEL.

(** What an operator method returns to the host. *)
Inductive Status := RUNNING_MODAL | FINISHED.

(** Caller-supplied functions.  The two defaults of the module are named;
    any other function is identified by a number, and what it does when
    it is called is given by the caller's code (see [run_hook]).  A call
    is recorded in the world's log with what the hook is given. *)
Inductive Hook := dumb_callback | dumb_draw | user_hook (n : nat).

Record Event := mkEvent { ev_type : string; ev_value : string }.

Inductive Exception :=
| ValueError (msg : string)
| TypeError
| AttributeError
| RuntimeError
| ReferenceError.

(** ** SnapStore: the global store *)

Module SnapStore.

Record t := mk {
  callback : option Hook;
  draw : option Hook;
  helper : option nat;
  takeloc : Vector;
  placeloc : Vector;
  constraint_axis : bool * bool * bool;
  helper_matrix : Matrix;
  transform_orientation : Orientation;
  (* the attribute [mode] does not exist until [snap_point] assigns it *)
  mode : option string }.

(** The class attributes as the class statement binds them. *)
Definition initial : t :=
  mk None None None vzero vzero (true, true, false) Matrix_identity GLOBAL None.

Definition set_callback v s :=
  mk v (draw s) (helper s) (takeloc s) (placeloc s) (constraint_axis s)
     (helper_matrix s) (transform_orientation s) (mode s).
Definition set_draw v s :=
  mk (callback s) v (helper s) (takeloc s) (placeloc s) (constraint_axis s)
     (helper_matrix s) (transform_orientation s) (mode s).
Definition set_helper v s :=
  mk (callback s) (draw s) v (takeloc s) (placeloc s) (constraint_axis s)
     (helper_matrix s) (transform_orientation s) (mode s).
Definition set_takeloc v s :=
  mk (callback s) (draw s) (helper s) v (placeloc s) (constraint_axis s)
     (helper_matrix s) (transform_orientation s) (mode s).
Definition set_placeloc v s :=
  mk (callback s) (draw s) (helper s) (takeloc s) v (constraint_axis s)
     (helper_matrix s) (transform_orientation s) (mode s).
Definition set_constraint_axis v s :=
  mk (callback s) (draw s) (helper s) (takeloc s) (placeloc s) v
     (helper_matrix s) (transform_orientation s) (mode s).
Definition set_helper_matrix v s :=
  mk (callback s) (draw s) (helper s) (takeloc s) (placeloc s) (constraint_axis s)
     v (transform_orientation s) (mode s).
Definition set_transform_orientation v s :=
  mk (callback s) (draw s) (helper s) (takeloc s) (placeloc s) (constraint_axis s)
     (helper_matrix s) v (mode s).
Definition set_mode v s :=
  mk (callback s) (draw s) (helper s) (takeloc s) (placeloc s) (constraint_axis s)
     (helper_matrix s) (transform_orientation s) v.

End SnapStore.

(** ** The operator instance: the fields [__init__] creates *)

Module Self.

Record t := mk {
  act : option nat;
  sel : list nat;
  use_snap : bool;
  snap_element : option string;
  snap_target : option string;
  pivot_point : option string;
  transform_orientation : option Orientation;
  _draw_handler : option nat }.

Definition __init__ : t := mk None [] false None None None None None.

End Self.

(** ** The host state *)

(** An object of [bpy.data.objects].  A Python reference to an object is its
    position in the registry: no operation of this module removes an object
    from the registry, so references stay valid.  [ob_linked] tells whether
    the object is linked into the active scene ([context.scene.objects]). *)
Record Object := mkObject {
  ob_name : string;
  ob_linked : bool;
  ob_select : bool;
  ob_location : Vector;
  ob_matrix_world : Matrix;
  ob_use_fake_user : bool;
  ob_data_use_fake_user : bool }.

(** What a callback can read from the session it is given:
    [sp.takeloc], [sp.placeloc], [sp.delta]. *)
Record SessionView := mkView {
  sv_takeloc : Vector;
  sv_placeloc : Vector;
  sv_delta : Vector }.

(** Observable calls into the host and into the caller's hooks. *)
Inductive Effect :=
| TagRedraw
| Report (level msg : string)
| HookCall (h : Hook) (ev : Event) (st : State) (seen : SessionView)
           (seen_store : SnapStore.t)
| TranslateInvoke (axis : bool * bool * bool) (orientation : Orientation)
                  (release_confirm : bool).

Record ToolSettings := mkTool {
  ts_use_snap : bool;
  ts_snap_element : string;
  ts_snap_target : string }.

Record SpaceData := mkSpace {
  sd_pivot_point : string;
  sd_transform_orientation : Orientation }.

Record World := mkWorld {
  store : SnapStore.t;
  objects : list Object;
  active : option nat;
  tool_settings : ToolSettings;
  space_data : SpaceData;
  area_type : string;
  draw_handlers : list (nat * Hook);
  modal_handlers : list Self.t;
  window_event : Event;
  log : list Effect }.

Definition with_store (f : SnapStore.t -> SnapStore.t) (w : World) : World :=
  mkWorld (f (store w)) (objects w) (active w) (tool_settings w) (space_data w)
          (area_type w) (draw_handlers w) (modal_handlers w) (window_event w) (log w).
Definition with_objects (f : list Object -> list Object) (w : World) : World :=
  mkWorld (store w) (f (objects w)) (active w) (tool_settings w) (space_data w)
          (area_type w) (draw_handlers w) (modal_handlers w) (window_event w) (log w).
Definition with_active (a : option nat) (w : World) : World :=
  mkWorld (store w) (objects w) a (tool_settings w) (space_data w)
          (area_type w) (draw_handlers w) (modal_handlers w) (window_event w) (log w).
Definition with_tool_settings (f : ToolSettings -> ToolSettings) (w : World) : World :=
  mkWorld (store w) (objects w) (active w) (f (tool_settings w)) (space_data w)
          (area_type w) (draw_handlers w) (modal_handlers w) (window_event w) (log w).
Definition with_space_data (f : SpaceData -> SpaceData) (w : World) : World :=
  mkWorld (store w) (objects w) (active w) (tool_settings w) (f (space_data w))
          (area_type w) (draw_handlers w) (modal_handlers w) (window_event w) (log w).
Definition with_draw_handlers (f : list (nat * Hook) -> list (nat * Hook))
    (w : World) : World :=
  mkWorld (store w) (objects w) (active w) (tool_settings w) (space_data w)
          (area_type w) (f (draw_handlers w)) (modal_handlers w) (window_event w) (log w).
Definition with_modal_handlers (f : list Self.t -> list Self.t) (w : World) : World :=
  mkWorld (store w) (objects w) (active w) (tool_settings w) (space_data w)
          (area_type w) (draw_handlers w) (f (modal_handlers w)) (window_event w) (log w).
Definition emit (e : Effect) (w : World) : World :=
  mkWorld (store w) (objects w) (active w) (tool_settings w) (space_data w)
          (area_type w) (draw_handlers w) (modal_handlers w) (window_event w) (log w ++ [e]).

(** ** Outcomes and the state-and-exception monad *)

Inductive Outcome (A : Type) :=
| Returned (a : A) (w : World)
| Raised (e : Exception) (w : World).
Arguments Returned {A} a w.
Arguments Raised {A} e w.

Definition M (A : Type) : Type := World -> Outcome A.

Definition ret {A} (a : A) : M A := fun w => Returned a w.
Definition raise {A} (e : Exception) : M A := fun w => Raised e w.
Definition bind {A B} (c : M A) (k : A -> M B) : M B :=
  fun w => match c w with
           | Returned a w' => k a w'
           | Raised e w' => Raised e w'
           end.
Definition gets {A} (f : World -> A) : M A := fun w => Returned (f w) w.
Definition modify (f : World -> World) : M unit := fun w => Returned tt (f w).

Notation "'let!' x ':=' c 'in' k" := (bind c (fun x => k))
  (at level 10, x name, c at level 100, k at level 200).

(** The world an outcome ends in, whether it returned or raised. *)
Definition final_world {A} (o : Outcome A) : World :=
  match o with Returned _ w => w | Raised _ w => w end.

(** ** The host interface the module calls

    The host application is not part of the module.  Each primitive below
    states the behaviour of one host call the source makes, on the part of
    the host state the module can observe. *)

Module bpy.

Definition obj_set_name v o :=
  mkObject v (ob_linked o) (ob_select o) (ob_location o) (ob_matrix_world o)
           (ob_use_fake_user o) (ob_data_use_fake_user o).
Definition obj_set_linked v o :=
  mkObject (ob_name o) v (ob_select o) (ob_location o) (ob_matrix_world o)
           (ob_use_fake_user o) (ob_data_use_fake_user o).
Definition obj_set_select v o :=
  mkObject (ob_name o) (ob_linked o) v (ob_location o) (ob_matrix_world o)
           (ob_use_fake_user o) (ob_data_use_fake_user o).
Definition obj_set_use_fake_user v o :=
  mkObject (ob_name o) (ob_linked o) (ob_select o) (ob_location o) (ob_matrix_world o)
           v (ob_data_use_fake_user o).
Definition obj_set_data_use_fake_user v o :=
  mkObject (ob_name o) (ob_linked o) (ob_select o) (ob_location o) (ob_matrix_world o)
           (ob_use_fake_user o) v.

(** Assigning [matrix_world] also moves the object: its location becomes
    the translation of the matrix. *)
Definition obj_set_matrix_world (m : Matrix) o :=
  mkObject (ob_name o) (ob_linked o) (ob_select o) (translation m) m
           (ob_use_fake_user o) (ob_data_use_fake_user o).

Definition Matrix_with_translation (v : Vector) (m : Matrix) : Matrix :=
  Mat (fst (row0 m), vx v) (fst (row1 m), vy v) (fst (row2 m), vz v) (row3 m).

(** The host's translate transform moves a dragged object. *)
Definition obj_move (v : Vector) o :=
  mkObject (ob_name o) (ob_linked o) (ob_select o) v
           (Matrix_with_translation v (ob_matrix_world o))
           (ob_use_fake_user o) (ob_data_use_fake_user o).

(** [collection.find(name)]: the position of the member called [name],
    [-1] when there is none. *)
Definition find (name : string) (l : list Object) : Z :=
  match list_find (fun o => ob_name o = name) l with
  | Some (i, _) => Z.of_nat i
  | None => -1
  end.

(** [bpy.data.objects.find(name)] *)
Definition data_objects_find (name : string) : M Z :=
  gets (fun w => find name (objects w)).

(** [bpy.data.objects[idx]], for an index [find] returned *)
Definition data_objects_getitem (idx : Z) : M nat := ret (Z.to_nat idx).

(** [context.scene.objects.find(name)]: the scene's collection holds the
    linked objects. *)
Definition scene_objects_find (name : string) : M Z :=
  gets (fun w => find name (filter (fun o => ob_linked o = true) (objects w))).

Definition is_linked (w : World) (r : nat) : bool :=
  match objects w !! r with Some o => ob_linked o | None => false end.

(** [context.scene.objects.link(ob)] refuses an object that is linked. *)
Definition scene_objects_link (r : nat) : M unit := fun w =>
  if is_linked w r then Raised RuntimeError w
  else Returned tt (with_objects (alter (obj_set_linked true) r) w).

(** [context.scene.objects.unlink(ob)] refuses an object that is not in
    the scene; unlinking the active object leaves no active object. *)
Definition scene_objects_unlink (r : nat) : M unit := fun w =>
  if is_linked w r then
    let w' := with_objects (alter (obj_set_linked false) r) w in
    Returned tt (if bool_decide (active w = Some r) then with_active None w' else w')
  else Raised RuntimeError w.

(** [context.scene.objects.active = ob]: the active object is an object
    of the scene; for an object outside the scene there is none. *)
Definition scene_objects_set_active (r : nat) : M unit := fun w =>
  Returned tt (with_active (if is_linked w r then Some r else None) w).

(** [context.active_object] *)
Definition active_object : M (option nat) := gets active.

Definition is_selected (o : Object) : bool := ob_linked o && ob_select o.

Fixpoint positions_from (p : Object -> bool) (l : list Object) (i : nat) : list nat :=
  match l with
  | [] => []
  | o :: l' => if p o then i :: positions_from p l' (S i)
               else positions_from p l' (S i)
  end.

(** [context.selected_objects]: the selected objects of the scene. *)
Definition selected_objects (w : World) : list nat :=
  positions_from is_selected (objects w) 0.

Definition deselect_linked (o : Object) : Object :=
  if ob_linked o then obj_set_select false o else o.

(** [bpy.ops.object.select_all(action="DESELECT")] *)
Definition ops_object_select_all_DESELECT : M unit :=
  modify (with_objects (fmap deselect_linked)).

(** The object [bpy.ops.object.add] creates, before the caller names it. *)
Definition added_object : Object :=
  mkObject "Mesh" true true vzero Matrix_identity false false.

(** [bpy.ops.object.add(type='MESH')]: a new object is registered, linked
    to the scene, and becomes the only selected and the active object. *)
Definition ops_object_add_MESH : M unit := fun w =>
  Returned tt
    (with_active (Some (length (objects w)))
       (with_objects (fun l => (deselect_linked <$> l) ++ [added_object]) w)).

(** An attribute assignment on the object behind a reference; a position
    outside the registry, which is no reference, is left without effect. *)
Definition update_object (r : nat) (f : Object -> Object) : M unit :=
  modify (with_objects (alter f r)).

(** [ob.location]; [vzero] stands for a reference outside the registry. *)
Definition location_of (w : World) (r : nat) : Vector :=
  match objects w !! r with Some o => ob_location o | None => vzero end.

Definition fresh_handle (l : list (nat * Hook)) : nat :=
  S (foldr Nat.max 0%nat (fst <$> l)).

(** [bpy.types.SpaceView3D.draw_handler_add(cb, args, 'WINDOW', 'POST_PIXEL')]
    wants a callable and returns a new handle. *)
Definition draw_handler_add (cb : option Hook) : M nat := fun w =>
  match cb with
  | None => Raised TypeError w
  | Some h =>
      let n := fresh_handle (draw_handlers w) in
      Returned n (with_draw_handlers (fun l => l ++ [(n, h)]) w)
  end.

Definition has_handle (n : nat) (l : list (nat * Hook)) : bool :=
  existsb (fun p => Nat.eqb (fst p) n) l.

(** [bpy.types.SpaceView3D.draw_handler_remove(handle, 'WINDOW')] wants a
    handle that is registered; [None] is no handle and is refused in the
    same way as a handle that was removed. *)
Definition draw_handler_remove (h : option nat) : M unit := fun w =>
  match h with
  | None => Raised (ValueError "callback_remove(handle): NULL handle given") w
  | Some n =>
      if has_handle n (draw_handlers w) then
        Returned tt
          (with_draw_handlers (List.filter (fun p => negb (Nat.eqb (fst p) n))) w)
      else Raised (ValueError "callback_remove(handle): NULL handle given") w
  end.

(** [context.window_manager.modal_handler_add(op)] *)
Definition modal_handler_add (op : Self.t) : M unit :=
  modify (with_modal_handlers (fun l => l ++ [op])).

(** [context.area.tag_redraw()] *)
Definition area_tag_redraw : M unit := modify (emit TagRedraw).

(** [op.report({level}, msg)] *)
Definition report (level msg : string) : M unit := modify (emit (Report level msg)).

(** [bpy.ops.transform.translate('INVOKE_DEFAULT', constraint_axis=...,
    constraint_orientation=..., release_confirm=...)] hands the drag over
    to the host's own transform. *)
Definition ops_transform_translate (axis : bool * bool * bool)
    (orientation : Orientation) (release_confirm : bool) : M unit :=
  modify (emit (TranslateInvoke axis orientation release_confirm)).

Definition set_use_snap v ts := mkTool v (ts_snap_element ts) (ts_snap_target ts).
Definition set_snap_element v ts := mkTool (ts_use_snap ts) v (ts_snap_target ts).
Definition set_snap_target v ts := mkTool (ts_use_snap ts) (ts_snap_element ts) v.
Definition set_pivot_point v sd := mkSpace v (sd_transform_orientation sd).
Definition set_transform_orientation v sd := mkSpace (sd_pivot_point sd) v.

(** Assigning an enumerated host property: [None] is not a member of any
    enumeration, the host refuses it. *)
Definition assign_enum {A} (v : option A) (set : A -> World -> World) : M unit :=
  match v with
  | Some a => modify (set a)
  | None => raise TypeError
  end.

End bpy.

(** ** The module *)

Definition helper_name : string := "Archipack_snap_helper".

Module ArchipackSnapBase.

(** The properties a session offers to the hooks. *)

Definition takeloc (w : World) : Vector := SnapStore.takeloc (store w).

Definition placeloc (w : World) : Vector :=
  match SnapStore.helper (store w) with
  | Some helper => bpy.location_of w helper
  | None => SnapStore.placeloc (store w)
  end.

Definition delta (w : World) : Vector := vsub (placeloc w) (takeloc w).

Definition session_view (w : World) : SessionView :=
  mkView (takeloc w) (placeloc w) (delta w).

Definition set_transform_orientation : M unit :=
  let! o := gets (fun w => SnapStore.transform_orientation (store w)) in
  modify (with_space_data (bpy.set_transform_orientation o)).

Definition create_helper : M unit :=
  let! helper_idx := bpy.data_objects_find helper_name in
  let! helper :=
    (if -1 <? helper_idx then
       let! helper := bpy.data_objects_getitem helper_idx in
       let! scene_idx := bpy.scene_objects_find helper_name in
       let! _ := (if scene_idx <? 0 then bpy.scene_objects_link helper else ret tt) in
       ret helper
     else
       let! _ := bpy.ops_object_add_MESH in
       let! a := bpy.active_object in
       match a with
       | None => raise AttributeError
       | Some helper =>
           let! _ := bpy.update_object helper (bpy.obj_set_name helper_name) in
           let! _ := bpy.update_object helper (bpy.obj_set_use_fake_user true) in
           let! _ := bpy.update_object helper (bpy.obj_set_data_use_fake_user true) in
           ret helper
       end) in
  let! m := gets (fun w => SnapStore.helper_matrix (store w)) in
  let! _ := bpy.update_object helper (bpy.obj_set_matrix_world m) in
  let! _ := bpy.update_object helper (bpy.obj_set_select true) in
  let! _ := bpy.scene_objects_set_active helper in
  modify (with_store (SnapStore.set_helper (Some helper))).

Definition destroy_helper : M unit :=
  let! h := gets (fun w => SnapStore.helper (store w)) in
  match h with
  | Some helper =>
      let! _ := bpy.scene_objects_unlink helper in
      modify (with_store (SnapStore.set_helper None))
  | None => ret tt
  end.

Definition init (self : Self.t) (event : Event) : M Self.t :=
  let! sel := gets bpy.selected_objects in
  let! act := bpy.active_object in
  let! _ := bpy.ops_object_select_all_DESELECT in
  let! use_snap := gets (fun w => ts_use_snap (tool_settings w)) in
  let! snap_element := gets (fun w => ts_snap_element (tool_settings w)) in
  let! snap_target := gets (fun w => ts_snap_target (tool_settings w)) in
  let! pivot_point := gets (fun w => sd_pivot_point (space_data w)) in
  let! transform_orientation :=
    gets (fun w => sd_transform_orientation (space_data w)) in
  let! _ := create_helper in
  let! _ := set_transform_orientation in
  let! cb := gets (fun w => SnapStore.draw (store w)) in
  let! handle := bpy.draw_handler_add cb in
  ret (Self.mk act sel use_snap (Some snap_element) (Some snap_target)
               (Some pivot_point) (Some transform_orientation) (Some handle)).

(** [for o in self.sel: o.select = True] *)
Definition select_each (sel : list nat) (l : list Object) : list Object :=
  foldl (fun l o => alter (bpy.obj_set_select true) o l) l sel.

Definition exit (self : Self.t) : M unit :=
  let! _ := bpy.draw_handler_remove (Self._draw_handler self) in
  let! _ := destroy_helper in
  let! _ := modify (with_tool_settings (bpy.set_use_snap (Self.use_snap self))) in
  let! _ := bpy.assign_enum (Self.snap_element self)
              (fun v => with_tool_settings (bpy.set_snap_element v)) in
  let! _ := bpy.assign_enum (Self.snap_target self)
              (fun v => with_tool_settings (bpy.set_snap_target v)) in
  let! _ := bpy.assign_enum (Self.pivot_point self)
              (fun v => with_space_data (bpy.set_pivot_point v)) in
  let! _ := bpy.assign_enum (Self.transform_orientation self)
              (fun v => with_space_data (bpy.set_transform_orientation v)) in
  let! _ := modify (with_objects (select_each (Self.sel self))) in
  match Self.act self with
  | Some act => bpy.scene_objects_set_active act
  | None => ret tt
  end.

End ArchipackSnapBase.

Module ARCHIPACK_OT_snap.

(** [event.type in ('ESC', 'RIGHTMOUSE')] *)
Definition is_cancel (event : Event) : bool :=
  String.eqb (ev_type event) "ESC" || String.eqb (ev_type event) "RIGHTMOUSE".

Section Hooks.

(** The caller's code: what the function numbered [n] does when it is
    called with [(context, event, state, self)].  It is arbitrary code: it
    may change the store and the host state, it may change the operator
    instance it is handed, and it may raise.  The instance is an object
    passed by reference: the result of the call is the instance as the
    call leaves it. *)
Variable code : nat -> Event -> State -> Self.t -> M Self.t.

(** Running a function on the four arguments of a callback call.
    [dumb_callback] takes them and returns; [dumb_draw] is declared with
    three parameters, so a call with four is a type error. *)
Definition run_hook (h : Hook) (event : Event) (state : State) (self : Self.t)
    : M Self.t :=
  match h with
  | dumb_callback => ret self
  | dumb_draw => raise TypeError
  | user_hook n => code n event state self
  end.

(** [SnapStore.callback(context, event, state, self)]: calling [None]
    is a type error; a call is logged with what the session shows, and
    then the function runs. *)
Definition call_callback (self : Self.t) (event : Event) (state : State)
    : M Self.t := fun w =>
  match SnapStore.callback (store w) with
  | None => Raised TypeError w
  | Some cb =>
      run_hook cb event state self
        (emit (HookCall cb event state (ArchipackSnapBase.session_view w) (store w)) w)
  end.

Definition modal (self : Self.t) (event : Event) : M Status :=
  let! _ := bpy.area_tag_redraw in
  let! self' :=
    (if is_cancel event then call_callback self event CANCEL
     else
       let! h := gets (fun w => SnapStore.helper (store w)) in
       match h with
       | None => raise AttributeError
       | Some helper =>
           let! _ := modify (fun w =>
                       with_store (SnapStore.set_placeloc (bpy.location_of w helper)) w) in
           call_callback self event SUCCESS
       end) in
  let! _ := ArchipackSnapBase.exit self' in
  ret FINISHED.

End Hooks.

Definition invoke (self : Self.t) (event : Event) : M Status :=
  let! area := gets area_type in
  if String.eqb area "VIEW_3D" then
    let! self' := ArchipackSnapBase.init self event in
    let! _ := bpy.modal_handler_add self' in
    let! axis := gets (fun w => SnapStore.constraint_axis (store w)) in
    let! orientation := gets (fun w => SnapStore.transform_orientation (store w)) in
    let! _ := bpy.ops_transform_translate axis orientation true in
    ret RUNNING_MODAL
  else
    let! _ := bpy.report "WARNING" "View3D not found, cannot run operator" in
    ret FINISHED.

End ARCHIPACK_OT_snap.

(** [bpy.ops.archipack.snap('INVOKE_DEFAULT')]: the host makes a new
    operator instance and invokes it with the window's current event. *)
Definition ops_archipack_snap_INVOKE_DEFAULT : M Status :=
  let! event := gets window_event in
  ARCHIPACK_OT_snap.invoke Self.__init__ event.

Definition snap_point (takeloc : option Vector) (draw callback : Hook)
    (takemat : option Matrix) (constraint_axis : bool * bool * bool)
    (transform_orientation : Orientation) (mode : string) : M unit :=
  let! _ := modify (with_store (SnapStore.set_draw (Some draw))) in
  let! _ := modify (with_store (SnapStore.set_callback (Some callback))) in
  let! _ := modify (with_store (SnapStore.set_constraint_axis constraint_axis)) in
  let! located :=
    match takemat with
    | Some m =>
        let! _ := modify (with_store (SnapStore.set_helper_matrix m)) in
        ret (translation m, LOCAL)
    | None =>
        match takeloc with
        | None =>
            raise (ValueError "ArchipackSnap: Either takeloc or takemat must be defined")
        | Some t =>
            let! _ := modify (with_store (SnapStore.set_helper_matrix (Matrix_Translation t))) in
            ret (t, transform_orientation)
        end
    end in
  let! _ := modify (with_store (SnapStore.set_takeloc (fst located))) in
  let! _ := modify (with_store (SnapStore.set_placeloc (fst located))) in
  let! _ := modify (with_store (SnapStore.set_transform_orientation (snd located))) in
  let! _ := modify (with_store (SnapStore.set_mode (Some mode))) in
  let! _ := ops_archipack_snap_INVOKE_DEFAULT in
  ret tt.

(** The parameter defaults of [snap_point]. *)
Definition default_constraint_axis : bool * bool * bool := (true, true, false).
Definition default_mode : string := "OBJECT".

(** ** The host during a session

    Between [invoke] and the terminal event the host's own transform runs.
    It moves what is selected, and the user may change the tool and view
    settings while dragging. *)

Definition vadd (a b : Vector) : Vector :=
  Vec (vx a + vx b) (vy a + vy b) (vz a + vz b).

Inductive HostAction :=
| Drag (d : Vector)
| SetUseSnap (b : bool)
| SetSnapElement (s : string)
| SetSnapTarget (s : string)
| SetPivotPoint (s : string)
| SetOrientation (o : Orientation).

Definition drag_selected (d : Vector) (o : Object) : Object :=
  if bpy.is_selected o then bpy.obj_move (vadd (ob_location o) d) o else o.

Definition host_action (w : World) (a : HostAction) : World :=
  match a with
  | Drag d => with_objects (fmap (drag_selected d)) w
  | SetUseSnap b => with_tool_settings (bpy.set_use_snap b) w
  | SetSnapElement s => with_tool_settings (bpy.set_snap_element s) w
  | SetSnapTarget s => with_tool_settings (bpy.set_snap_target s) w
  | SetPivotPoint s => with_space_data (bpy.set_pivot_point s) w
  | SetOrientation o => with_space_data (bpy.set_transform_orientation o) w
  end.

Definition host_actions (l : list HostAction) : M unit :=
  modify (fun w => foldl host_action w l).

(** One session of the controller: [init], the host's drag, and the modal
    step that receives the terminal event, with the caller's code [code]. *)
Definition session (code : nat -> Event -> State -> Self.t -> M Self.t)
    (self : Self.t) (event : Event) (during : list HostAction)
    (terminal : Event) : M Status :=
  let! self' := ArchipackSnapBase.init self event in
  let! _ := host_actions during in
  ARCHIPACK_OT_snap.modal code self' terminal.

(** ** Observations and conditions *)

(** The part of the context a session is to give back. *)
Record ContextView := mkContextView {
  cv_selected_objects : list nat;
  cv_active_object : option nat;
  cv_use_snap : bool;
  cv_snap_element : string;
  cv_snap_target : string;
  cv_pivot_point : string;
  cv_transform_orientation : Orientation }.

Definition context_view (w : World) : ContextView :=
  mkContextView (bpy.selected_objects w) (active w)
    (ts_use_snap (tool_settings w)) (ts_snap_element (tool_settings w))
    (ts_snap_target (tool_settings w)) (sd_pivot_point (space_data w))
    (sd_transform_orientation (space_data w)).

(** Invariants of the host: object names are unique in the registry, and
    the active object, when there is one, is an object of the scene. *)
Definition host_invariant (w : World) : bool :=
  bool_decide (NoDup (ob_name <$> objects w)) &&
  match active w with Some a => bpy.is_linked w a | None => true end.

(** Both hooks of the store are bound, as [snap_point] leaves them. *)
Definition hooks_bound (w : World) : bool :=
  match SnapStore.draw (store w), SnapStore.callback (store w) with
  | Some _, Some _ => true
  | _, _ => false
  end.

Definition selected_at (l : list Object) (r : nat) : bool :=
  match l !! r with Some o => bpy.is_selected o | None => false end.

(** The object carrying the reserved name, if any, is neither selected nor
    the active object. *)
Definition helper_at_rest (w : World) : bool :=
  match list_find (fun o => ob_name o = helper_name) (objects w) with
  | Some (h, _) => negb (selected_at (objects w) h) && negb (bool_decide (active w = Some h))
  | None => true
  end.

(** A session is running for the operator instance [self]: what [init]
    establishes and the drag keeps. *)
Definition running (self : Self.t) (w : World) : bool :=
  match SnapStore.callback (store w), SnapStore.helper (store w),
        Self._draw_handler self, Self.snap_element self, Self.snap_target self,
        Self.pivot_point self, Self.transform_orientation self with
  | Some _, Some helper, Some handle, Some _, Some _, Some _, Some _ =>
      bpy.is_linked w helper && bpy.has_handle handle (draw_handlers w)
  | _, _, _, _, _, _, _ => false
  end.

Definition is_hook_call (e : Effect) : bool :=
  match e with HookCall _ _ _ _ _ => true | _ => false end.

(** The calls into the caller's hooks, in order. *)
Definition hook_calls (l : list Effect) : list Effect := List.filter is_hook_call l.

(** ** Sample worlds *)

Definition cube : Object :=
  mkObject "Cube" true true (Vec 1 2 3) (Matrix_Translation (Vec 1 2 3)) false false.

Definition lamp : Object :=
  mkObject "Lamp" true false (Vec 0 0 5) (Matrix_Translation (Vec 0 0 5)) false false.

(** A helper a former session left behind: registered, not in the scene. *)
Definition stale_helper : Object :=
  mkObject helper_name false true (Vec 9 9 9) (Matrix_Translation (Vec 9 9 9)) true true.


Definition bound_store : SnapStore.t :=
  SnapStore.mk (Some dumb_callback) (Some dumb_draw) None (Vec 4 5 6) (Vec 4 5 6)
               (true, true, false) (Matrix_Translation (Vec 4 5 6)) GLOBAL (Some "OBJECT").

Definition sample_world (objs : list Object) (act : option nat) (area : string) : World :=
  mkWorld bound_store objs act (mkTool false "INCREMENT" "CLOSEST")
          (mkSpace "MEDIAN_POINT" GLOBAL) area [] [] (mkEvent "LEFTMOUSE" "PRESS") [].


Definition esc : Event := mkEvent "ESC" "PRESS".
Definition release : Event := mkEvent "LEFTMOUSE" "RELEASE".

(** The exception [snap_point] raises when it is given no location. *)
Definition missing_location : Exception :=
  ValueError "ArchipackSnap: Either takeloc or takemat must be defined".

(** ** The effect of [create_helper], said directly

    A registered helper is taken as it is, linked when the scene has no
    object of its name, given the store's matrix and selected; when none is
    registered one is appended to the registry. *)

Definition reused_helper (relink : bool) (m : Matrix) (o : Object) : Object :=
  bpy.obj_set_select true
    (bpy.obj_set_matrix_world m (if relink then bpy.obj_set_linked true o else o)).

Definition created_helper (m : Matrix) : Object :=
  mkObject helper_name true true (translation m) m true true.

Definition with_helper (w : World) : World :=
  let m := SnapStore.helper_matrix (store w) in
  match list_find (fun o => ob_name o = helper_name) (objects w) with
  | Some (h, o) =>
      let relink :=
        bpy.find helper_name (filter (fun o => ob_linked o = true) (objects w)) <? 0 in
      with_store (SnapStore.set_helper (Some h))
        (with_active (if relink || ob_linked o then Some h else None)
           (with_objects (alter (reused_helper relink m) h) w))
  | None =>
      with_store (SnapStore.set_helper (Some (length (objects w))))
        (with_active (Some (length (objects w)))
           (with_objects (fun l => (bpy.deselect_linked <$> l) ++ [created_helper m]) w))
  end.

(** ** The effect of [init], said directly *)

(** The operator instance after [init]: the context it saved and the
    handle of the draw hook it installed. *)
Definition snapshot (w : World) : Self.t :=
  Self.mk (active w) (bpy.selected_objects w)
          (ts_use_snap (tool_settings w))
          (Some (ts_snap_element (tool_settings w)))
          (Some (ts_snap_target (tool_settings w)))
          (Some (sd_pivot_point (space_data w)))
          (Some (sd_transform_orientation (space_data w)))
          (Some (bpy.fresh_handle (draw_handlers w))).

(** The world after [init] when the store's draw hook is [d]. *)
Definition begun (d : Hook) (w : World) : World :=
  with_draw_handlers (fun l => l ++ [(bpy.fresh_handle l, d)])
    (with_space_data
       (bpy.set_transform_orientation (SnapStore.transform_orientation (store w)))
       (with_helper (with_objects (fmap bpy.deselect_linked) w))).

(** The world the callback is called in, for a modal step that finds
    helper [h] and callback [cb]: the redraw is requested, on a confirming
    event the helper's location is copied, and the call is logged. *)
Definition at_callback (event : Event) (h : nat) (cb : Hook) (w : World) : World :=
  let w1 := emit TagRedraw w in
  if ARCHIPACK_OT_snap.is_cancel event then
    emit (HookCall cb event CANCEL (ArchipackSnapBase.session_view w1) (store w1)) w1
  else
    let w2 := with_store (SnapStore.set_placeloc (bpy.location_of w1 h)) w1 in
    emit (HookCall cb event SUCCESS (ArchipackSnapBase.session_view w2) (store w2)) w2.

(** The two flags of an object the selection depends on. *)
Definition flags (o : Object) : bool * bool := (ob_linked o, ob_select o).

(** ** A started session to compute with *)

Definition idle_world : World := sample_world [cube; lamp] (Some 0%nat) "VIEW_3D".

Definition started_world : World :=
  final_world (snap_point (Some (Vec 4 5 6)) dumb_draw dumb_callback None
                          default_constraint_axis GLOBAL default_mode idle_world).

Definition dragged_world : World :=
  foldl host_action started_world [Drag (Vec 3 2 1); SetUseSnap true].

(** ** The effect of [snap_point], said directly *)

(** The location, helper matrix and orientation [snap_point] settles on;
    [None] when the caller gave neither a point nor a matrix. *)
Definition located (takeloc : option Vector) (takemat : option Matrix)
    (transform_orientation : Orientation) : option (Vector * Matrix * Orientation) :=
  match takemat, takeloc with
  | Some m, _ => Some (translation m, m, LOCAL)
  | None, Some t => Some (t, Matrix_Translation t, transform_orientation)
  | None, None => None
  end.

(** The store when [snap_point] hands over to the operator. *)
Definition configured (draw callback : Hook) (axis : bool * bool * bool)
    (mode : string) (loc : Vector) (m : Matrix) (o : Orientation) (w : World) : World :=
  with_store (fun s => SnapStore.mk (Some callback) (Some draw) (SnapStore.helper s)
                                    loc loc axis m o (Some mode)) w.

(** The world [invoke] leaves in a 3D viewport when the draw hook is [d]. *)
Definition invoked (d : Hook) (w : World) : World :=
  emit (TranslateInvoke (SnapStore.constraint_axis (store w))
                        (SnapStore.transform_orientation (store w)) true)
       (with_modal_handlers (fun l => l ++ [snapshot w]) (begun d w)).

Definition view3d_warning : Effect :=
  Report "WARNING" "View3D not found, cannot run operator".

(** The outcome a modal step passes to the callback. *)
Definition state_of (event : Event) : State :=
  if ARCHIPACK_OT_snap.is_cancel event then CANCEL else SUCCESS.

(** ** Conditions on the caller's code *)

(** What [exit] needs to run to its end: a helper that is referenced and
    in the scene, the draw handle registered, and the saved settings. *)
Definition exit_ready (self : Self.t) (w : World) : bool :=
  match SnapStore.helper (store w), Self._draw_handler self,
        Self.snap_element self, Self.snap_target self,
        Self.pivot_point self, Self.transform_orientation self with
  | Some helper, Some handle, Some _, Some _, Some _, Some _ =>
      bpy.is_linked w helper && bpy.has_handle handle (draw_handlers w)
  | _, _, _, _, _, _ => false
  end.


(** A call that moreover leaves the store, the modal handlers, the names
    of the objects, the record of hook calls, the place of the helper and
    the type of the area as they are.  It may move, or change in other
    ways, any other object. *)
Definition quiet (self : Self.t) (c : M Self.t) : Prop :=
  forall w, exists w',
    c w = Returned self w' /\
    store w' = store w /\
    active w' = active w /\
    draw_handlers w' = draw_handlers w /\
    modal_handlers w' = modal_handlers w /\
    hook_calls (log w') = hook_calls (log w) /\
    (forall r, flags <$> objects w' !! r = flags <$> objects w !! r) /\
    (forall r, ob_name <$> objects w' !! r = ob_name <$> objects w !! r) /\
    (forall h, SnapStore.helper (store w) = Some h ->
               bpy.location_of w' h = bpy.location_of w h) /\
    area_type w' = area_type w.


Definition callback_quiet (code : nat -> Event -> State -> Self.t -> M Self.t)
    (w : World) : Prop :=
  forall cb event st self,
    SnapStore.callback (store w) = Some cb ->
    quiet self (ARCHIPACK_OT_snap.run_hook code cb event st self).

(** ** Sample code of a caller *)

(** A callback that on success applies the session's delta to the first
    object, unless that is the helper, as a caller of the module does, and
    does nothing on cancel. *)
Definition move_first_code (n : nat) (event : Event) (st : State) (self : Self.t)
    : M Self.t :=
  match st with
  | SUCCESS =>
      let! d := gets ArchipackSnapBase.delta in
      let! h := gets (fun w => SnapStore.helper (store w)) in
      if bool_decide (h = Some 0%nat) then ret self
      else
        let! _ := bpy.update_object 0%nat
                    (fun o => bpy.obj_move (vadd (ob_location o) d) o) in
        ret self
  | CANCEL => ret self
  end.


(** A callback that selects the second object. *)
Definition selecting_code (n : nat) (event : Event) (st : State) (self : Self.t)
    : M Self.t :=
  let! _ := bpy.update_object 1%nat (bpy.obj_set_select true) in
  ret self.

(** A callback that empties the selection the instance saved. *)
Definition forgetting_code (n : nat) (event : Event) (st : State) (self : Self.t)
    : M Self.t :=
  ret (Self.mk (Self.act self) [] (Self.use_snap self) (Self.snap_element self)
               (Self.snap_target self) (Self.pivot_point self)
               (Self.transform_orientation self) (Self._draw_handler self)).

(** The sample worlds with a caller's function as callback. *)
Definition user_world : World :=
  with_store (SnapStore.set_callback (Some (user_hook 0))) idle_world.

Definition user_dragged_world : World :=
  with_store (SnapStore.set_callback (Some (user_hook 0))) dragged_world.

(** * Properties *)

(** ** Lists of objects *)

Section Lists.

Implicit Types (l : list Object) (o : Object).

Lemma find_cases name l :
  match list_find (fun o => ob_name o = name) l with
  | Some (i, o) =>
      bpy.find name l = Z.of_nat i /\ l !! i = Some o /\ ob_name o = name
  | None => bpy.find name l = -1 /\ Forall (fun o => ob_name o <> name) l
  end.
Proof.
  unfold bpy.find.
  destruct (list_find _ l) as [[i o]|] eqn:E.
  - apply list_find_Some in E as (Hi & Hn & _). auto.
  - apply list_find_None in E. auto.
Qed.

(** A linked object of the name is found in the scene. *)
Lemma scene_find_of_linked name l i o :
  l !! i = Some o -> ob_name o = name -> ob_linked o = true ->
  (bpy.find name (filter (fun o => ob_linked o = true) l) <? 0) = false.
Proof.
  intros Hi Hn Hlk.
  pose proof (find_cases name (filter (fun o => ob_linked o = true) l)) as Hc.
  destruct (list_find _ (filter _ l)) as [[j y]|] eqn:E.
  - destruct Hc as (-> & _). apply Z.ltb_ge. lia.
  - destruct Hc as (_ & Hall). exfalso.
    rewrite Forall_forall in Hall. apply (Hall o); [|assumption].
    apply list_elem_of_filter. split; [assumption|].
    eapply list_elem_of_lookup_2; eassumption.
Qed.

(** With unique names, looking the name up in the scene tells whether the
    registry's object of that name is linked. *)
Lemma scene_find_linked name l i o :
  NoDup (ob_name <$> l) -> l !! i = Some o -> ob_name o = name ->
  (bpy.find name (filter (fun o => ob_linked o = true) l) <? 0) = negb (ob_linked o).
Proof.
  intros Hnd Hi Hn.
  destruct (ob_linked o) eqn:Hlk.
  { eapply scene_find_of_linked; eassumption. }
  pose proof (find_cases name (filter (fun o => ob_linked o = true) l)) as Hc.
  destruct (list_find _ (filter _ l)) as [[j y]|] eqn:E.
  - destruct Hc as (_ & Hj & Hy). exfalso.
    apply list_elem_of_lookup_2, list_elem_of_filter in Hj as [Hly Hin].
    apply list_elem_of_lookup_1 in Hin as [k Hk].
    assert (k = i) as ->.
    { apply (NoDup_lookup (ob_name <$> l) k i name Hnd);
        rewrite list_lookup_fmap; [rewrite Hk | rewrite Hi]; simpl; congruence. }
    congruence.
  - destruct Hc as (-> & _). reflexivity.
Qed.

Lemma alter_reused (relink : bool) m l i :
  alter (bpy.obj_set_select true) i
    (alter (bpy.obj_set_matrix_world m) i
       (if relink then alter (bpy.obj_set_linked true) i l else l))
  = alter (reused_helper relink m) i l.
Proof.
  apply list_eq. intros j.
  destruct (decide (i = j)) as [<-|Hne].
  - rewrite !list_lookup_alter_eq.
    destruct relink; [rewrite list_lookup_alter_eq|];
      destruct (l !! i); reflexivity.
  - rewrite !list_lookup_alter_ne by assumption.
    destruct relink; [|reflexivity].
    rewrite list_lookup_alter_ne by assumption. reflexivity.
Qed.

Lemma alter_added f l x :
  alter f (length l) ((bpy.deselect_linked <$> l) ++ [x])
  = (bpy.deselect_linked <$> l) ++ [f x].
Proof.
  rewrite <- (length_fmap bpy.deselect_linked l) at 1.
  rewrite <- (Nat.add_0_r (length (bpy.deselect_linked <$> l))).
  rewrite alter_app_r. reflexivity.
Qed.

Lemma lookup_added l x :
  ((bpy.deselect_linked <$> l) ++ [x]) !! length l = Some x.
Proof. apply list_lookup_middle. rewrite length_fmap. reflexivity. Qed.

End Lists.

(** ** The helper *)

(** [create_helper] never raises, and its effect is [with_helper]. *)
Lemma create_helper_effect w :
  ArchipackSnapBase.create_helper w = Returned tt (with_helper w).
Proof.
  unfold ArchipackSnapBase.create_helper, with_helper.
  unfold bind at 1. unfold bpy.data_objects_find, gets.
  pose proof (find_cases helper_name (objects w)) as Hc.
  destruct (list_find _ (objects w)) as [[i o]|] eqn:E.
  - destruct Hc as (-> & Hi & Hn).
    replace (-1 <? Z.of_nat i) with true by (symmetry; apply Z.ltb_lt; lia).
    unfold bind, bpy.data_objects_getitem, ret, bpy.scene_objects_find, gets.
    rewrite Nat2Z.id.
    pose proof (scene_find_of_linked helper_name (objects w) i o Hi Hn) as Hsc.
    remember (bpy.find helper_name
                (filter (fun o => ob_linked o = true) (objects w)) <? 0) as relink.
    pose proof (alter_reused relink
                  (SnapStore.helper_matrix (store w)) (objects w) i) as Hal.
    destruct relink.
    + assert (ob_linked o = false) as Hlk.
      { destruct (ob_linked o); [specialize (Hsc eq_refl); discriminate|reflexivity]. }
      unfold bpy.scene_objects_link. cbv beta. unfold bpy.is_linked at 1.
      rewrite Hi, Hlk.
      unfold bpy.update_object, modify, bpy.scene_objects_set_active, bpy.is_linked.
      unfold with_store, with_active, with_objects.
      cbn -[helper_name lookup alter fmap].
      rewrite Hal, list_lookup_alter_eq, Hi. reflexivity.
    + unfold bpy.update_object, modify, bpy.scene_objects_set_active, bpy.is_linked.
      unfold with_store, with_active, with_objects.
      cbn -[helper_name lookup alter fmap].
      rewrite Hal, list_lookup_alter_eq, Hi. reflexivity.
  - destruct Hc as (-> & Hall).
    change (-1 <? -1) with false. cbv iota.
    unfold bind, bpy.ops_object_add_MESH, bpy.active_object, gets.
    unfold bpy.update_object, modify, bpy.scene_objects_set_active, bpy.is_linked.
    unfold with_store, with_active, with_objects.
    cbn -[helper_name lookup alter fmap].
    rewrite !alter_added, lookup_added. reflexivity.
Qed.

Lemma with_helper_frame w :
  exists h,
    store (with_helper w) = SnapStore.set_helper (Some h) (store w) /\
    bpy.location_of (with_helper w) h = translation (SnapStore.helper_matrix (store w)) /\
    tool_settings (with_helper w) = tool_settings w /\
    space_data (with_helper w) = space_data w /\
    area_type (with_helper w) = area_type w /\
    draw_handlers (with_helper w) = draw_handlers w /\
    modal_handlers (with_helper w) = modal_handlers w /\
    window_event (with_helper w) = window_event w /\
    log (with_helper w) = log w.
Proof.
  unfold with_helper, bpy.location_of.
  destruct (list_find _ (objects w)) as [[h o]|] eqn:E.
  - apply list_find_Some in E as (Hi & _ & _).
    exists h. cbn -[lookup alter fmap helper_name].
    rewrite list_lookup_alter_eq, Hi. repeat split.
  - exists (length (objects w)). cbn -[lookup alter fmap helper_name].
    rewrite lookup_added. repeat split.
Qed.

Lemma names_deselect (l : list Object) :
  ob_name <$> (bpy.deselect_linked <$> l) = ob_name <$> l.
Proof.
  rewrite <- list_fmap_compose. apply list_fmap_ext.
  intros i o _. unfold bpy.deselect_linked. simpl. destruct (ob_linked o); reflexivity.
Qed.

(** ** [init] and [exit] *)

(** [init] raises only for a draw hook that is not bound. *)
Lemma init_effect self event w d :
  SnapStore.draw (store w) = Some d ->
  ArchipackSnapBase.init self event w = Returned (snapshot w) (begun d w).
Proof.
  intros Hd. unfold ArchipackSnapBase.init.
  unfold bind at 1. unfold gets at 1.
  unfold bind at 1. unfold bpy.active_object, gets at 1.
  unfold bind at 1. unfold bpy.ops_object_select_all_DESELECT, modify.
  do 5 (unfold bind at 1; unfold gets at 1).
  unfold bind at 1. rewrite create_helper_effect.
  unfold bind at 1. unfold ArchipackSnapBase.set_transform_orientation.
  unfold bind at 1. unfold gets at 1. unfold modify.
  unfold bind at 1. unfold gets at 1.
  destruct (with_helper_frame (with_objects (fmap bpy.deselect_linked) w))
    as (h & Hs & _ & _ & _ & _ & Hdh & _).
  unfold bind, bpy.draw_handler_add, ret, snapshot, begun.
  unfold with_draw_handlers, with_space_data.
  cbn -[with_helper lookup alter fmap bpy.selected_objects bpy.fresh_handle].
  rewrite Hs, Hdh.
  cbn -[with_helper lookup alter fmap bpy.selected_objects bpy.fresh_handle].
  rewrite Hd. reflexivity.
Qed.

(** [exit] where it can run to its end: nothing raises, and the context
    is written back from what the instance saved. *)
Lemma exit_effect self w :
  exit_ready self w = true ->
  exists h n el tg pv ori w',
    SnapStore.helper (store w) = Some h /\
    bpy.is_linked w h = true /\
    Self._draw_handler self = Some n /\
    Self.snap_element self = Some el /\ Self.snap_target self = Some tg /\
    Self.pivot_point self = Some pv /\ Self.transform_orientation self = Some ori /\
    ArchipackSnapBase.exit self w = Returned tt w' /\
    store w' = SnapStore.set_helper None (store w) /\
    objects w' = ArchipackSnapBase.select_each (Self.sel self)
                   (alter (bpy.obj_set_linked false) h (objects w)) /\
    active w' = match Self.act self with
                | Some a => if bpy.is_linked w' a then Some a else None
                | None => if bool_decide (active w = Some h) then None else active w
                end /\
    tool_settings w' = mkTool (Self.use_snap self) el tg /\
    space_data w' = mkSpace pv ori /\
    draw_handlers w'
      = List.filter (fun p => negb (Nat.eqb (fst p) n)) (draw_handlers w) /\
    modal_handlers w' = modal_handlers w /\
    log w' = log w.
Proof.
  unfold exit_ready. intros Hrun.
  destruct self as [act sel us se st pp ori dh].
  cbn [Self._draw_handler Self.snap_element Self.snap_target Self.pivot_point
       Self.transform_orientation] in Hrun.
  destruct (SnapStore.helper (store w)) as [h|] eqn:Hh; [|discriminate].
  destruct dh as [n|]; [|discriminate].
  destruct se as [el|]; [|discriminate].
  destruct st as [tg|]; [|discriminate].
  destruct pp as [pv|]; [|discriminate].
  destruct ori as [o|]; [|discriminate].
  apply andb_true_iff in Hrun as [Hlk Hhd].
  exists h, n, el, tg, pv, o.
  unfold ArchipackSnapBase.exit.
  cbn [Self._draw_handler Self.snap_element Self.snap_target Self.pivot_point
       Self.transform_orientation Self.act Self.sel Self.use_snap].
  unfold bind at 1. unfold bpy.draw_handler_remove. rewrite Hhd.
  unfold bind at 1. unfold ArchipackSnapBase.destroy_helper.
  unfold bind at 1. unfold gets. cbn [store with_draw_handlers]. rewrite Hh.
  unfold bind at 1. unfold bpy.scene_objects_unlink.
  change (bpy.is_linked (with_draw_handlers ?f w) h) with (bpy.is_linked w h).
  rewrite Hlk.
  unfold bind, modify, bpy.assign_enum, modify.
  cbn -[lookup alter fmap bool_decide bpy.is_linked ArchipackSnapBase.select_each].
  destruct act as [a|]; destruct (bool_decide (active w = Some h));
    (eexists; repeat (split; [reflexivity|]); reflexivity).
Qed.

(** ** The selection *)

Section Selection.

Implicit Types (l : list Object) (o : Object) (sel : list nat).

Lemma find_deselect name l :
  list_find (fun o => ob_name o = name) (bpy.deselect_linked <$> l)
  = prod_map id bpy.deselect_linked <$> list_find (fun o => ob_name o = name) l.
Proof.
  rewrite list_find_fmap. f_equal. apply list_find_ext.
  intros o. unfold compose, bpy.deselect_linked.
  destruct (ob_linked o); reflexivity.
Qed.




Lemma positions_ext l1 l2 i :
  (forall r, selected_at l1 r = selected_at l2 r) ->
  bpy.positions_from bpy.is_selected l1 i = bpy.positions_from bpy.is_selected l2 i.
Proof.
  revert l2 i. induction l1 as [|a l1 IH]; intros l2 i Hext.
  - induction l2 as [|b l2 IH2] in i, Hext |- *; [reflexivity|].
    cbn [bpy.positions_from].
    specialize (Hext 0%nat) as H0. unfold selected_at in H0. cbn in H0.
    rewrite <- H0. apply IH2. intros r. specialize (Hext (S r)). exact Hext.
  - destruct l2 as [|b l2].
    + cbn [bpy.positions_from].
      specialize (Hext 0%nat) as H0. unfold selected_at in H0. cbn in H0.
      rewrite H0. apply (IH [] (S i)). intros r. exact (Hext (S r)).
    + cbn [bpy.positions_from].
      specialize (Hext 0%nat) as H0. unfold selected_at in H0. cbn in H0.
      rewrite H0. rewrite (IH l2 (S i)); [reflexivity|].
      intros r. exact (Hext (S r)).
Qed.

End Selection.

(** ** The world [init] leaves *)

Lemma deselect_linked_idem o :
  bpy.deselect_linked (bpy.deselect_linked o) = bpy.deselect_linked o.
Proof.
  unfold bpy.deselect_linked.
  destruct (ob_linked o) eqn:E; simpl; rewrite ?E; reflexivity.
Qed.

(** The helper of the world [init] leaves: it is the registered object of
    the reserved name, or a new last object; it is selected and placed at
    the store's matrix and, with unique names, linked and active; every
    other object is as before, but deselected if it is in the scene. *)
Lemma begun_helper d w :
  exists h o,
    match list_find (fun o => ob_name o = helper_name) (objects w) with
    | Some (i, _) => h = i
    | None => h = length (objects w)
    end /\
    SnapStore.helper (store (begun d w)) = Some h /\
    objects (begun d w) !! h = Some o /\
    ob_name o = helper_name /\
    ob_select o = true /\
    ob_matrix_world o = SnapStore.helper_matrix (store w) /\
    ob_location o = translation (SnapStore.helper_matrix (store w)) /\
    (NoDup (ob_name <$> objects w) ->
     ob_linked o = true /\ active (begun d w) = Some h) /\
    forall r, r <> h ->
      objects (begun d w) !! r = bpy.deselect_linked <$> objects w !! r.
Proof.
  unfold begun, with_helper.
  cbn [objects with_objects store].
  rewrite find_deselect.
  destruct (list_find _ (objects w)) as [[i o]|] eqn:E;
    cbn [fmap option_fmap option_map prod_map fst snd id].
  - apply list_find_Some in E as (Hi & Hn & _).
    remember (bpy.find helper_name
                (filter (fun o => ob_linked o = true)
                        (bpy.deselect_linked <$> objects w)) <? 0) as relink.
    exists i, (reused_helper relink (SnapStore.helper_matrix (store w))
                 (bpy.deselect_linked o)).
    cbn -[lookup alter fmap helper_name].
    rewrite list_lookup_alter_eq, list_lookup_fmap, Hi.
    split; [reflexivity|]. split; [reflexivity|]. split; [reflexivity|].
    split.
    { unfold bpy.deselect_linked.
      destruct relink, (ob_linked o); exact Hn. }
    repeat (split; [reflexivity|]).
    split.
    + intros Hnd.
      assert (relink = negb (ob_linked (bpy.deselect_linked o))) as Hrel.
      { subst relink. apply (scene_find_linked helper_name _ i).
        - rewrite names_deselect. exact Hnd.
        - rewrite list_lookup_fmap, Hi. reflexivity.
        - unfold bpy.deselect_linked. destruct (ob_linked o); exact Hn. }
      rewrite Hrel.
      destruct (ob_linked (bpy.deselect_linked o)) eqn:Hl; cbn;
        rewrite ?Hl; split; reflexivity.
    + intros r Hr. rewrite list_lookup_alter_ne by congruence.
      apply list_lookup_fmap.
  - exists (length (objects w)), (created_helper (SnapStore.helper_matrix (store w))).
    cbn -[lookup alter fmap helper_name].
    rewrite !length_fmap.
    rewrite list_lookup_middle by (rewrite !length_fmap; reflexivity).
    repeat (split; [reflexivity|]).
    split; [intros _; split; reflexivity|].
    intros r Hr.
    destruct (decide (r < length (objects w))%nat) as [Hlt|Hge].
    + rewrite lookup_app_l by (rewrite !length_fmap; exact Hlt).
      rewrite !list_lookup_fmap.
      destruct (objects w !! r); cbn; [rewrite deselect_linked_idem|]; reflexivity.
    + rewrite !lookup_ge_None_2; [reflexivity| |].
      * lia.
      * rewrite length_app, !length_fmap. cbn. lia.
Qed.

Lemma begun_frame d w :
  SnapStore.callback (store (begun d w)) = SnapStore.callback (store w) /\
  SnapStore.takeloc (store (begun d w)) = SnapStore.takeloc (store w) /\
  SnapStore.placeloc (store (begun d w)) = SnapStore.placeloc (store w) /\
  SnapStore.transform_orientation (store (begun d w))
    = SnapStore.transform_orientation (store w) /\
  SnapStore.constraint_axis (store (begun d w))
    = SnapStore.constraint_axis (store w) /\
  tool_settings (begun d w) = tool_settings w /\
  space_data (begun d w)
    = bpy.set_transform_orientation (SnapStore.transform_orientation (store w))
        (space_data w) /\
  draw_handlers (begun d w)
    = draw_handlers w ++ [(bpy.fresh_handle (draw_handlers w), d)] /\
  modal_handlers (begun d w) = modal_handlers w /\
  log (begun d w) = log w.
Proof.
  destruct (with_helper_frame (with_objects (fmap bpy.deselect_linked) w))
    as (h & Hs & _ & Hts & Hsd & _ & Hdh & Hmh & _ & Hlog).
  unfold begun.
  cbn -[with_helper lookup alter fmap bpy.fresh_handle].
  rewrite Hs, Hts, Hsd, Hdh, Hmh, Hlog. repeat split.
Qed.

(** ** The host's drag *)



Lemma is_linked_flags w1 w2 r :
  flags <$> objects w1 !! r = flags <$> objects w2 !! r ->
  bpy.is_linked w1 r = bpy.is_linked w2 r.
Proof.
  unfold bpy.is_linked.
  destruct (objects w1 !! r), (objects w2 !! r); cbn; intros H;
    try discriminate; [|reflexivity].
  injection H as H _. exact H.
Qed.


Lemma running_exit_ready self w :
  running self w = true -> exit_ready self w = true.
Proof.
  unfold running, exit_ready.
  destruct (SnapStore.callback (store w)); [|discriminate].
  intros H. exact H.
Qed.

(** Whatever its outcome, [exit] leaves the stored locations, the
    callback, the log and the type of the area as they are. *)
Lemma exit_frame self w :
  SnapStore.placeloc (store (final_world (ArchipackSnapBase.exit self w)))
  = SnapStore.placeloc (store w) /\
  SnapStore.takeloc (store (final_world (ArchipackSnapBase.exit self w)))
  = SnapStore.takeloc (store w) /\
  SnapStore.callback (store (final_world (ArchipackSnapBase.exit self w)))
  = SnapStore.callback (store w) /\
  log (final_world (ArchipackSnapBase.exit self w)) = log w /\
  area_type (final_world (ArchipackSnapBase.exit self w)) = area_type w.
Proof.
  destruct self as [act sel us se st pp ori dh].
  unfold ArchipackSnapBase.exit, ArchipackSnapBase.destroy_helper,
    bpy.draw_handler_remove, bpy.scene_objects_unlink, bpy.assign_enum,
    bpy.scene_objects_set_active, bind, gets, modify, ret, raise.
  cbn [Self._draw_handler Self.snap_element Self.snap_target Self.pivot_point
       Self.transform_orientation Self.act Self.sel Self.use_snap].
  destruct dh as [n|]; [|repeat split].
  destruct (bpy.has_handle n (draw_handlers w)); [|repeat split].
  cbn [store with_draw_handlers].
  destruct (SnapStore.helper (store w)) as [h|].
  - destruct (bpy.is_linked _ h); [|repeat split].
    destruct (bool_decide _);
      destruct se, st, pp, ori, act; repeat split.
  - destruct se, st, pp, ori, act; repeat split.
Qed.

(** When [exit] returns, the store refers to no helper. *)
Lemma exit_clears_helper self w w' :
  ArchipackSnapBase.exit self w = Returned tt w' ->
  SnapStore.helper (store w') = None.
Proof.
  destruct self as [act sel us se st pp ori dh].
  unfold ArchipackSnapBase.exit, ArchipackSnapBase.destroy_helper,
    bpy.draw_handler_remove, bpy.scene_objects_unlink, bpy.assign_enum,
    bpy.scene_objects_set_active, bind, gets, modify, ret, raise.
  cbn [Self._draw_handler Self.snap_element Self.snap_target Self.pivot_point
       Self.transform_orientation Self.act Self.sel Self.use_snap].
  destruct dh as [n|]; [|discriminate].
  destruct (bpy.has_handle n (draw_handlers w)); [|discriminate].
  cbn [store with_draw_handlers].
  destruct (SnapStore.helper (store w)) as [h|] eqn:Hh.
  - destruct (bpy.is_linked _ h); [|discriminate].
    destruct (bool_decide _);
      destruct se, st, pp, ori, act; intros H; try discriminate;
      injection H as <-; reflexivity.
  - destruct se, st, pp, ori, act; intros H; try discriminate;
      injection H as <-; exact Hh.
Qed.

(** ** The modal step *)

Lemma is_cancel_true event :
  ARCHIPACK_OT_snap.is_cancel event = true
  <-> ev_type event = "ESC"%string \/ ev_type event = "RIGHTMOUSE"%string.
Proof.
  unfold ARCHIPACK_OT_snap.is_cancel.
  rewrite orb_true_iff, !String.eqb_eq. reflexivity.
Qed.

Lemma state_of_cancel event :
  ev_type event = "ESC"%string \/ ev_type event = "RIGHTMOUSE"%string ->
  state_of event = CANCEL.
Proof. intros H. apply is_cancel_true in H. unfold state_of. rewrite H. reflexivity. Qed.


(** With a helper referenced and a callback bound, the modal step is: the
    callback's code run in [at_callback], then [exit], then [FINISHED]. *)
Lemma modal_unfold code self event w h cb :
  SnapStore.helper (store w) = Some h ->
  SnapStore.callback (store w) = Some cb ->
  ARCHIPACK_OT_snap.modal code self event w
  = (let! self' := ARCHIPACK_OT_snap.run_hook code cb event (state_of event) self in
     let! _ := ArchipackSnapBase.exit self' in ret FINISHED)
      (at_callback event h cb w).
Proof.
  intros Hh Hcb. unfold ARCHIPACK_OT_snap.modal, at_callback, state_of.
  unfold bind at 1. unfold bpy.area_tag_redraw, modify.
  unfold bind at 1.
  destruct (ARCHIPACK_OT_snap.is_cancel event).
  - unfold ARCHIPACK_OT_snap.call_callback. cbn [store emit]. rewrite Hcb.
    unfold bind. reflexivity.
  - unfold bind at 1. unfold gets. cbn [store emit]. rewrite Hh.
    unfold bind at 1. unfold modify.
    unfold ARCHIPACK_OT_snap.call_callback.
    cbn [store with_store emit SnapStore.callback SnapStore.set_placeloc].
    rewrite Hcb. unfold bind. reflexivity.
Qed.

Lemma at_callback_frame event h cb w :
  objects (at_callback event h cb w) = objects w /\
  active (at_callback event h cb w) = active w /\
  tool_settings (at_callback event h cb w) = tool_settings w /\
  space_data (at_callback event h cb w) = space_data w /\
  draw_handlers (at_callback event h cb w) = draw_handlers w /\
  modal_handlers (at_callback event h cb w) = modal_handlers w /\
  SnapStore.helper (store (at_callback event h cb w)) = SnapStore.helper (store w) /\
  SnapStore.callback (store (at_callback event h cb w)) = SnapStore.callback (store w) /\
  SnapStore.takeloc (store (at_callback event h cb w)) = SnapStore.takeloc (store w) /\
  area_type (at_callback event h cb w) = area_type w.
Proof.
  unfold at_callback. destruct (ARCHIPACK_OT_snap.is_cancel event); repeat split.
Qed.

Lemma running_at_callback self event h cb w :
  running self (at_callback event h cb w) = running self w.
Proof.
  destruct (at_callback_frame event h cb w) as (Ho & _ & _ & _ & Hd & _ & Hh & Hc & _).
  unfold running, bpy.is_linked. rewrite Ho, Hd, Hh, Hc. reflexivity.
Qed.


(** A modal step with a helper referenced and a callback bound follows the
    callback: a raise of the callback is the step's raise and [exit] does
    not run; when the callback returns, [exit] runs where the callback
    left off, on the instance as the callback left it. *)
Lemma modal_follows_callback code self event w h cb :
  SnapStore.helper (store w) = Some h ->
  SnapStore.callback (store w) = Some cb ->
  (forall e w_cb,
     ARCHIPACK_OT_snap.run_hook code cb event (state_of event) self
       (at_callback event h cb w) = Raised e w_cb ->
     ARCHIPACK_OT_snap.modal code self event w = Raised e w_cb) /\
  (forall self' w_cb,
     ARCHIPACK_OT_snap.run_hook code cb event (state_of event) self
       (at_callback event h cb w) = Returned self' w_cb ->
     ARCHIPACK_OT_snap.modal code self event w
     = (let! _ := ArchipackSnapBase.exit self' in ret FINISHED) w_cb).
Proof.
  intros Hh Hcb. rewrite (modal_unfold code self event w h cb Hh Hcb).
  split; intros; unfold bind at 1; rewrite H; reflexivity.
Qed.

(** A modal step whose callback returned into a world where [exit] can
    run: [exit] runs to its end there and the step returns [FINISHED]. *)
Lemma modal_finishes code self event w h cb self' w_cb :
  SnapStore.helper (store w) = Some h ->
  SnapStore.callback (store w) = Some cb ->
  ARCHIPACK_OT_snap.run_hook code cb event (state_of event) self
    (at_callback event h cb w) = Returned self' w_cb ->
  exit_ready self' w_cb = true ->
  exists h' n el tg pv ori w',
    SnapStore.helper (store w_cb) = Some h' /\
    Self._draw_handler self' = Some n /\
    Self.snap_element self' = Some el /\ Self.snap_target self' = Some tg /\
    Self.pivot_point self' = Some pv /\ Self.transform_orientation self' = Some ori /\
    ArchipackSnapBase.exit self' w_cb = Returned tt w' /\
    ARCHIPACK_OT_snap.modal code self event w = Returned FINISHED w' /\
    store w' = SnapStore.set_helper None (store w_cb) /\
    log w' = log w_cb /\
    objects w' = ArchipackSnapBase.select_each (Self.sel self')
                   (alter (bpy.obj_set_linked false) h' (objects w_cb)) /\
    active w' = match Self.act self' with
                | Some a => if bpy.is_linked w' a then Some a else None
                | None => if bool_decide (active w_cb = Some h') then None
                          else active w_cb
                end /\
    tool_settings w' = mkTool (Self.use_snap self') el tg /\
    space_data w' = mkSpace pv ori /\
    draw_handlers w'
    = List.filter (fun p => negb (Nat.eqb (fst p) n)) (draw_handlers w_cb) /\
    modal_handlers w' = modal_handlers w_cb.
Proof.
  intros Hh Hcb Hrun Hready.
  destruct (exit_effect self' w_cb Hready)
    as (h' & n & el & tg & pv & ori & w' & Hh' & _ & Hn & Hel & Htg & Hpv & Hori
        & Hex & Hst & Hobj & Hact & Hts & Hsd & Hdh & Hmh & Hlog).
  exists h', n, el, tg, pv, ori, w'.
  repeat (split; [assumption|]).
  split.
  { destruct (modal_follows_callback code self event w h cb Hh Hcb) as [_ Hret].
    rewrite (Hret self' w_cb Hrun). unfold bind. rewrite Hex. reflexivity. }
  repeat (split; [assumption|]). assumption.
Qed.

(** A computation that keeps the scene keeps [exit] able to run. *)
Lemma keeps_scene_exit_ready self w w' :
  SnapStore.helper (store w') = SnapStore.helper (store w) ->
  draw_handlers w' = draw_handlers w ->
  (forall r, flags <$> objects w' !! r = flags <$> objects w !! r) ->
  exit_ready self w' = exit_ready self w.
Proof.
  intros Hh Hd Hf. unfold exit_ready. rewrite Hh, Hd.
  destruct (SnapStore.helper (store w)) as [h|]; [|reflexivity].
  rewrite (is_linked_flags w' w h (Hf h)). reflexivity.
Qed.


Lemma has_fresh_handle l d :
  bpy.has_handle (bpy.fresh_handle l) (l ++ [(bpy.fresh_handle l, d)]) = true.
Proof.
  unfold bpy.has_handle. rewrite existsb_app. cbn [existsb fst].
  rewrite Nat.eqb_refl. rewrite orb_true_r. reflexivity.
Qed.
(** ** The entry function without a location *)

(** C3: a call of [snap_point] with neither [takeloc] nor [takemat] raises
    the value error, and at that point no object has been created or
    touched, no operator has been invoked, no handler installed and no
    session started: the registry, the scene's active object, the helper
    reference, the modal and draw handlers and the log of host calls are
    those of the call's start. *)
Theorem snap_point_rejects_missing_location :
  forall draw callback constraint_axis transform_orientation mode w,
  exists w',
    snap_point None draw callback None constraint_axis transform_orientation mode w
      = Raised missing_location w' /\
    objects w' = objects w /\
    active w' = active w /\
    SnapStore.helper (store w') = SnapStore.helper (store w) /\
    modal_handlers w' = modal_handlers w /\
    draw_handlers w' = draw_handlers w /\
    tool_settings w' = tool_settings w /\
    space_data w' = space_data w /\
    log w' = log w.
Proof.
  intros. eexists. split; [reflexivity|].
  cbn. repeat split.
Qed.

(** C10: when [snap_point] raises for a missing location, the store already
    holds the caller's [draw], [callback] and [constraint_axis], while
    [takeloc], [placeloc], [helper_matrix] and [transform_orientation] are
    as before the call. *)
Theorem snap_point_failure_is_not_atomic :
  forall draw callback constraint_axis transform_orientation mode w,
  exists w',
    snap_point None draw callback None constraint_axis transform_orientation mode w
      = Raised missing_location w' /\
    SnapStore.draw (store w') = Some draw /\
    SnapStore.callback (store w') = Some callback /\
    SnapStore.constraint_axis (store w') = constraint_axis /\
    SnapStore.takeloc (store w') = SnapStore.takeloc (store w) /\
    SnapStore.placeloc (store w') = SnapStore.placeloc (store w) /\
    SnapStore.helper_matrix (store w') = SnapStore.helper_matrix (store w) /\
    SnapStore.transform_orientation (store w')
      = SnapStore.transform_orientation (store w).
Proof.
  intros. eexists. split; [reflexivity|].
  cbn. repeat split.
Qed.

(** ** The operator *)

Lemma invoke_view3d self event w d :
  area_type w = "VIEW_3D"%string ->
  SnapStore.draw (store w) = Some d ->
  ARCHIPACK_OT_snap.invoke self event w = Returned RUNNING_MODAL (invoked d w).
Proof.
  intros Harea Hd. unfold ARCHIPACK_OT_snap.invoke.
  unfold bind at 1. unfold gets at 1. rewrite Harea.
  change (String.eqb "VIEW_3D" "VIEW_3D") with true. cbv iota.
  unfold bind at 1. rewrite (init_effect _ _ _ d Hd).
  destruct (begun_frame d w) as (_ & _ & _ & Hori & Hax & _).
  unfold bind, bpy.modal_handler_add, modify, gets, bpy.ops_transform_translate,
    modify, ret, invoked.
  cbn [store with_modal_handlers]. rewrite Hori, Hax. reflexivity.
Qed.

Lemma invoke_elsewhere self event w :
  area_type w <> "VIEW_3D"%string ->
  ARCHIPACK_OT_snap.invoke self event w = Returned FINISHED (emit view3d_warning w).
Proof.
  intros Harea. unfold ARCHIPACK_OT_snap.invoke.
  unfold bind at 1. unfold gets at 1.
  apply String.eqb_neq in Harea. rewrite Harea. reflexivity.
Qed.

(** C5: invoked where the area is not a 3D viewport, the operator reports
    a warning and returns [FINISHED] at once; no hook is called, the
    registry holds the same objects (no helper is created), and the store,
    the selection and active object, the tool and view settings and the
    handlers are untouched. *)
Theorem invoke_without_view3d self event w :
  area_type w <> "VIEW_3D"%string ->
  exists w',
    ARCHIPACK_OT_snap.invoke self event w = Returned FINISHED w' /\
    log w' = log w ++ [Report "WARNING" "View3D not found, cannot run operator"] /\
    hook_calls (log w') = hook_calls (log w) /\
    objects w' = objects w /\
    store w' = store w /\
    context_view w' = context_view w /\
    draw_handlers w' = draw_handlers w /\
    modal_handlers w' = modal_handlers w.
Proof.
  intros Harea. exists (emit view3d_warning w).
  split; [apply invoke_elsewhere; exact Harea|].
  split; [reflexivity|].
  split.
  { cbn [log emit]. unfold hook_calls. rewrite List.filter_app. cbn.
    apply app_nil_r. }
  repeat split.
Qed.

Lemma invoke_without_view3d_witness :
  area_type (sample_world [cube; lamp] (Some 0%nat) "PROPERTIES") <> "VIEW_3D"%string /\
  exists w',
    ARCHIPACK_OT_snap.invoke Self.__init__ release
      (sample_world [cube; lamp] (Some 0%nat) "PROPERTIES") = Returned FINISHED w' /\
    objects w' = [cube; lamp].
Proof.
  split; [discriminate|].
  destruct (invoke_without_view3d Self.__init__ release
              (sample_world [cube; lamp] (Some 0%nat) "PROPERTIES"))
    as (w' & Hinv & _ & _ & Hobj & _); [discriminate|].
  exists w'. split; assumption.
Defined.

(** ** The entry function with a location *)

Lemma located_translation tl tm ori loc m ori' :
  located tl tm ori = Some (loc, m, ori') -> translation m = loc.
Proof.
  unfold located. destruct tm as [m0|]; [|destruct tl as [t|]]; intros H;
    try discriminate; injection H as <- <- <-; [reflexivity|].
  destruct t; reflexivity.
Qed.

Lemma snap_point_unfold tl d cb tm axis ori mode w loc m ori' :
  located tl tm ori = Some (loc, m, ori') ->
  snap_point tl d cb tm axis ori mode w
  = (let! _ := ops_archipack_snap_INVOKE_DEFAULT in ret tt)
      (configured d cb axis mode loc m ori' w).
Proof.
  unfold located, snap_point.
  destruct tm as [m0|]; [|destruct tl as [t|]]; intros H;
    try discriminate; injection H as <- <- <-; reflexivity.
Qed.

(** [snap_point], given a location, returns; the store holds what the
    caller passed, and in a 3D viewport a session is started whose helper
    sits at the take location. *)
Lemma snap_point_effect tl d cb tm axis ori mode w loc m ori' :
  located tl tm ori = Some (loc, m, ori') ->
  exists w',
    snap_point tl d cb tm axis ori mode w = Returned tt w' /\
    SnapStore.takeloc (store w') = loc /\
    SnapStore.placeloc (store w') = loc /\
    SnapStore.transform_orientation (store w') = ori' /\
    (if String.eqb (area_type w) "VIEW_3D"
     then exists h, SnapStore.helper (store w') = Some h /\ bpy.location_of w' h = loc
     else SnapStore.helper (store w') = SnapStore.helper (store w)).
Proof.
  intros Hloc. rewrite (snap_point_unfold _ _ _ _ _ _ _ _ _ _ _ Hloc).
  pose proof (located_translation _ _ _ _ _ _ Hloc) as Htr.
  set (wc := configured d cb axis mode loc m ori' w).
  unfold bind at 1. unfold ops_archipack_snap_INVOKE_DEFAULT.
  unfold bind at 1. unfold gets at 1.
  destruct (String.eqb (area_type w) "VIEW_3D") eqn:Harea.
  - apply String.eqb_eq in Harea.
    rewrite (invoke_view3d _ _ wc d Harea eq_refl).
    destruct (begun_frame d wc) as (_ & Htl & Hpl & Hori & _).
    destruct (begun_helper d wc) as (h & o & _ & Hh & Ho & _ & _ & _ & Hl & _).
    eexists. split; [reflexivity|].
    unfold invoked. cbn [store emit with_modal_handlers objects].
    rewrite Htl, Hpl, Hori. repeat (split; [reflexivity|]).
    exists h. split; [exact Hh|].
    unfold bpy.location_of. cbn [objects emit with_modal_handlers].
    rewrite Ho, Hl. exact Htr.
  - apply String.eqb_neq in Harea.
    rewrite (invoke_elsewhere _ _ wc Harea).
    eexists. split; [reflexivity|]. repeat split.
Qed.

(** C4: a call of [snap_point] that supplies [takemat] returns with the
    stored take location equal to the matrix's translation and the stored
    orientation equal to [LOCAL], whatever orientation (and whatever point)
    the caller passed as well; the matrix is the helper matrix. *)
Theorem snap_point_with_matrix :
  forall takeloc draw callback takemat constraint_axis transform_orientation mode w,
  exists w',
    snap_point takeloc draw callback (Some takemat) constraint_axis
               transform_orientation mode w = Returned tt w' /\
    SnapStore.takeloc (store w') = translation takemat /\
    SnapStore.transform_orientation (store w') = LOCAL.
Proof.
  intros.
  destruct (snap_point_effect takeloc draw callback (Some takemat) constraint_axis
              transform_orientation mode w (translation takemat) takemat LOCAL eq_refl)
    as (w' & Hret & Htl & _ & Hori & _).
  exists w'. repeat split; assumption.
Qed.

Lemma vsub_diag v : vsub v v = vzero.
Proof. unfold vsub, vzero. rewrite !Z.sub_diag. reflexivity. Qed.

(** C9: a call of [snap_point] that is given a point or a matrix returns,
    and then the stored place location equals the stored take location;
    when a session was started (the area is a 3D viewport), or no helper
    was referenced before, the session's place location is its take
    location and its delta is the zero vector. *)
Theorem snap_point_starts_at_takeloc :
  forall takeloc draw callback takemat constraint_axis transform_orientation mode w,
  takeloc <> None \/ takemat <> None ->
  exists w',
    snap_point takeloc draw callback takemat constraint_axis
               transform_orientation mode w = Returned tt w' /\
    SnapStore.placeloc (store w') = SnapStore.takeloc (store w') /\
    (area_type w = "VIEW_3D"%string \/ SnapStore.helper (store w) = None ->
     ArchipackSnapBase.placeloc w' = ArchipackSnapBase.takeloc w' /\
     ArchipackSnapBase.delta w' = vzero).
Proof.
  intros tl d cb tm axis ori mode w Hgiven.
  assert (exists loc m ori', located tl tm ori = Some (loc, m, ori'))
    as (loc & m & ori' & Hloc).
  { unfold located. destruct tm as [m|]; [eauto|].
    destruct tl as [t|]; [eauto|]. destruct Hgiven; contradiction. }
  destruct (snap_point_effect tl d cb tm axis ori mode w loc m ori' Hloc)
    as (w' & Hret & Htl & Hpl & _ & Hhelper).
  exists w'. split; [exact Hret|]. split; [congruence|].
  intros Hcase.
  assert (ArchipackSnapBase.placeloc w' = ArchipackSnapBase.takeloc w') as Heq.
  { unfold ArchipackSnapBase.placeloc, ArchipackSnapBase.takeloc.
    destruct (String.eqb (area_type w) "VIEW_3D") eqn:Harea.
    - destruct Hhelper as (h & Hh & Hl). rewrite Hh, Hl, Htl. reflexivity.
    - destruct Hcase as [Hv|Hnone].
      + apply String.eqb_neq in Harea. contradiction.
      + rewrite Hhelper, Hnone. congruence. }
  split; [exact Heq|].
  unfold ArchipackSnapBase.delta. rewrite Heq. apply vsub_diag.
Qed.

Lemma snap_point_starts_at_takeloc_witness :
  (Some (Vec 4 5 6) <> None \/ @None Matrix <> None) /\
  exists w',
    snap_point (Some (Vec 4 5 6)) dumb_draw dumb_callback None
               default_constraint_axis GLOBAL default_mode idle_world = Returned tt w' /\
    ArchipackSnapBase.delta w' = vzero.
Proof.
  split; [left; discriminate|].
  destruct (snap_point_starts_at_takeloc (Some (Vec 4 5 6)) dumb_draw dumb_callback None
              default_constraint_axis GLOBAL default_mode idle_world)
    as (w' & Hret & _ & Hdelta); [left; discriminate|].
  exists w'. split; [exact Hret|].
  apply Hdelta. left. reflexivity.
Defined.

(** ** The terminal event *)


Lemma dumb_callback_quiet code event st self :
  quiet self (ARCHIPACK_OT_snap.run_hook code dumb_callback event st self).
Proof. intros w. exists w. repeat split. Qed.

Lemma move_first_code_quiet n event st self :
  quiet self (move_first_code n event st self).
Proof.
  intros w. destruct st; [|exists w; repeat split].
  unfold move_first_code, bind, gets.
  destruct (bool_decide (SnapStore.helper (store w) = Some 0%nat)) eqn:Hh0;
    [exists w; repeat split|].
  apply bool_decide_eq_false in Hh0.
  eexists. split; [reflexivity|].
  cbn [store active draw_handlers modal_handlers log objects with_objects].
  repeat (split; [reflexivity|]).
  split; [|split; [|split; [|reflexivity]]]; intros r.
  - destruct (decide (r = 0%nat)) as [->|Hne];
      [rewrite list_lookup_alter_eq; destruct (objects w !! 0%nat); reflexivity
      |rewrite list_lookup_alter_ne by congruence; reflexivity].
  - destruct (decide (r = 0%nat)) as [->|Hne];
      [rewrite list_lookup_alter_eq; destruct (objects w !! 0%nat); reflexivity
      |rewrite list_lookup_alter_ne by congruence; reflexivity].
  - intros Hr. unfold bpy.location_of. cbn [objects with_objects].
    rewrite list_lookup_alter_ne by congruence. reflexivity.
Qed.



Lemma own_callback_quiet code w :
  SnapStore.callback (store w) = Some dumb_callback ->
  callback_quiet code w.
Proof.
  intros Hcb cb event st self Hcb'. rewrite Hcb in Hcb'. injection Hcb' as <-.
  apply dumb_callback_quiet.
Qed.

Lemma quiet_keeps_exit self c :
  quiet self c ->
  forall w, exists w',
    c w = Returned self w' /\ store w' = store w /\
    exit_ready self w' = exit_ready self w /\
    (forall r, SnapStore.helper (store w) = Some r ->
               bpy.location_of w' r = bpy.location_of w r).
Proof.
  intros Hq w. destruct (Hq w) as (w' & Hr & Hs & _ & Hd & _ & _ & Hf & _ & Hl & _).
  exists w'. split; [exact Hr|]. split; [exact Hs|].
  split; [|exact Hl].
  apply keeps_scene_exit_ready; [rewrite Hs; reflexivity|exact Hd|exact Hf].
Qed.

(** What a modal step returns, it returns after [exit]: the store refers
    to no helper. *)
Lemma modal_returned_clears_helper code self event w st w' :
  ARCHIPACK_OT_snap.modal code self event w = Returned st w' ->
  st = FINISHED /\ SnapStore.helper (store w') = None.
Proof.
  unfold ARCHIPACK_OT_snap.modal. unfold bind at 1.
  unfold bpy.area_tag_redraw, modify. unfold bind, ret.
  match goal with
  | |- match ?c with _ => _ end = _ -> _ => destruct c as [self' w_cb|e w_cb]
  end; [|discriminate].
  destruct (ArchipackSnapBase.exit self' w_cb) as [[] w''|e w''] eqn:Hex; [|discriminate].
  intros H. injection H as <- <-. split; [reflexivity|].
  exact (exit_clears_helper self' w_cb w'' Hex).
Qed.

(** The world a callback is called in, by what it holds. *)
Lemma at_callback_cancel event h cb w :
  ev_type event = "ESC"%string \/ ev_type event = "RIGHTMOUSE"%string ->
  store (at_callback event h cb w) = store w /\
  log (at_callback event h cb w)
  = log w ++ [TagRedraw;
              HookCall cb event CANCEL (ArchipackSnapBase.session_view w) (store w)].
Proof.
  intros Hc. apply is_cancel_true in Hc. unfold at_callback. rewrite Hc.
  split; [reflexivity|]. cbn [log emit]. rewrite <- app_assoc. reflexivity.
Qed.


Lemma running_bound self w :
  running self w = true ->
  exists h cb, SnapStore.helper (store w) = Some h /\
               SnapStore.callback (store w) = Some cb.
Proof.
  unfold running. intros Hrun.
  destruct (SnapStore.callback (store w)) as [cb|]; [|discriminate].
  destruct (SnapStore.helper (store w)) as [h|]; [|discriminate]. eauto.
Qed.

Lemma exit_ready_at_callback self event h cb w :
  running self w = true -> exit_ready self (at_callback event h cb w) = true.
Proof.
  intros Hrun. apply running_exit_ready. rewrite running_at_callback. exact Hrun.
Qed.




(** C6: on the cancel path of a running session the step calls the
    callback exactly once, with [CANCEL], in a world whose stored
    [placeloc] is what it was before the step: it is not updated from the
    helper's position.  Nothing the step does after the call touches the
    stored [placeloc] or calls a hook again, whether [exit] returns or
    raises.  So with a callback that returns and itself keeps the stored
    [placeloc], the record of calls and what [exit] needs, the module's own
    [dumb_callback] among them, the step returns [FINISHED], the callback
    has been called once, the stored [placeloc] is what it was, and once
    the session has ended the session's place location reads that stored
    value, not the helper's position. *)
Theorem cancel_leaves_placeloc code self event w :
  running self w = true ->
  ev_type event = "ESC"%string \/ ev_type event = "RIGHTMOUSE"%string ->
  exists cb w_call,
    SnapStore.callback (store w) = Some cb /\
    store w_call = store w /\
    hook_calls (log w_call)
      = hook_calls (log w)
        ++ [HookCall cb event CANCEL (ArchipackSnapBase.session_view w) (store w)] /\
    ARCHIPACK_OT_snap.modal code self event w
    = (let! self' := ARCHIPACK_OT_snap.run_hook code cb event CANCEL self in
       let! _ := ArchipackSnapBase.exit self' in ret FINISHED) w_call /\
    SnapStore.placeloc (store (final_world (ARCHIPACK_OT_snap.modal code self event w)))
    = SnapStore.placeloc
        (store (final_world (ARCHIPACK_OT_snap.run_hook code cb event CANCEL self w_call))) /\
    log (final_world (ARCHIPACK_OT_snap.modal code self event w))
    = log (final_world (ARCHIPACK_OT_snap.run_hook code cb event CANCEL self w_call)) /\
    (forall self' w_cb,
       ARCHIPACK_OT_snap.run_hook code cb event CANCEL self w_call
       = Returned self' w_cb ->
       SnapStore.placeloc (store w_cb) = SnapStore.placeloc (store w_call) ->
       hook_calls (log w_cb) = hook_calls (log w_call) ->
       exit_ready self' w_cb = true ->
       exists w',
         ARCHIPACK_OT_snap.modal code self event w = Returned FINISHED w' /\
         hook_calls (log w')
           = hook_calls (log w)
             ++ [HookCall cb event CANCEL (ArchipackSnapBase.session_view w) (store w)] /\
         SnapStore.placeloc (store w') = SnapStore.placeloc (store w) /\
         ArchipackSnapBase.placeloc w' = SnapStore.placeloc (store w)) /\
    (quiet self (ARCHIPACK_OT_snap.run_hook code cb event CANCEL self)
     \/ cb = dumb_callback ->
     exists w',
       ARCHIPACK_OT_snap.modal code self event w = Returned FINISHED w' /\
       hook_calls (log w')
         = hook_calls (log w)
           ++ [HookCall cb event CANCEL (ArchipackSnapBase.session_view w) (store w)] /\
       SnapStore.placeloc (store w') = SnapStore.placeloc (store w) /\
       ArchipackSnapBase.placeloc w' = SnapStore.placeloc (store w)).
Proof.
  intros Hrun Hc.
  destruct (running_bound self w Hrun) as (h & cb & Hh & Hcb).
  pose proof (exit_ready_at_callback self event h cb w Hrun) as Hready.
  pose proof (modal_unfold code self event w h cb Hh Hcb) as Hmodal.
  rewrite (state_of_cancel event Hc) in Hmodal.
  destruct (at_callback_cancel event h cb w Hc) as [Hst Hlog].
  set (w_call := at_callback event h cb w) in *.
  assert (Hcalls : hook_calls (log w_call)
            = hook_calls (log w)
              ++ [HookCall cb event CANCEL (ArchipackSnapBase.session_view w) (store w)]).
  { rewrite Hlog. unfold hook_calls. rewrite !List.filter_app. cbn.
    reflexivity. }
  assert (Hfin : forall self' w_cb,
       ARCHIPACK_OT_snap.run_hook code cb event CANCEL self w_call
       = Returned self' w_cb ->
       SnapStore.placeloc (store w_cb) = SnapStore.placeloc (store w_call) ->
       hook_calls (log w_cb) = hook_calls (log w_call) ->
       exit_ready self' w_cb = true ->
       exists w',
         ARCHIPACK_OT_snap.modal code self event w = Returned FINISHED w' /\
         hook_calls (log w')
           = hook_calls (log w)
             ++ [HookCall cb event CANCEL (ArchipackSnapBase.session_view w) (store w)] /\
         SnapStore.placeloc (store w') = SnapStore.placeloc (store w) /\
         ArchipackSnapBase.placeloc w' = SnapStore.placeloc (store w)).
  { intros self' w_cb Hr Hpl Hhc Hok.
    destruct (exit_effect self' w_cb Hok)
      as (h' & n & el & tg & pv & ori & w' & _ & _ & _ & _ & _ & _ & _
          & Hex & Hst' & _ & _ & _ & _ & _ & _ & Hlog').
    exists w'. split.
    { rewrite Hmodal. unfold bind. rewrite Hr, Hex. reflexivity. }
    split; [rewrite Hlog', Hhc; exact Hcalls|].
    assert (Hp : SnapStore.placeloc (store w') = SnapStore.placeloc (store w)).
    { rewrite Hst'. cbn [SnapStore.placeloc SnapStore.set_helper].
      rewrite Hpl, Hst. reflexivity. }
    split; [exact Hp|].
    unfold ArchipackSnapBase.placeloc. rewrite Hst'.
    cbn [SnapStore.helper SnapStore.set_helper].
    rewrite <- Hp, Hst'. reflexivity. }
  exists cb, w_call.
  split; [exact Hcb|]. split; [exact Hst|]. split; [exact Hcalls|].
  split; [exact Hmodal|].
  split; [|split].
  - rewrite Hmodal. unfold bind at 1.
    destruct (ARCHIPACK_OT_snap.run_hook code cb event CANCEL self w_call)
      as [self' w_cb|e w_cb]; [|reflexivity].
    cbn [final_world]. unfold bind, ret.
    destruct (exit_frame self' w_cb) as (Hp & _).
    destruct (ArchipackSnapBase.exit self' w_cb) as [[] w'|e w']; exact Hp.
  - rewrite Hmodal. unfold bind at 1.
    destruct (ARCHIPACK_OT_snap.run_hook code cb event CANCEL self w_call)
      as [self' w_cb|e w_cb]; [|reflexivity].
    cbn [final_world]. unfold bind, ret.
    destruct (exit_frame self' w_cb) as (_ & _ & _ & Hl & _).
    destruct (ArchipackSnapBase.exit self' w_cb) as [[] w'|e w']; exact Hl.
  - split; [exact Hfin|].
    intros Hq.
    assert (Hquiet : quiet self (ARCHIPACK_OT_snap.run_hook code cb event CANCEL self)).
    { destruct Hq as [Hq| ->]; [exact Hq|apply dumb_callback_quiet]. }
    destruct (Hquiet w_call) as (w_cb & Hr & Hs & Ha & Hd & _ & Hhc & Hf & _).
    apply (Hfin self w_cb Hr); [rewrite Hs; reflexivity|exact Hhc|].
    rewrite (keeps_scene_exit_ready self w_call w_cb); [exact Hready| |exact Hd|exact Hf].
    rewrite Hs. reflexivity.
Qed.

Lemma cancel_leaves_placeloc_witness :
  running (snapshot idle_world) user_dragged_world = true /\
  (ev_type esc = "ESC"%string \/ ev_type esc = "RIGHTMOUSE"%string) /\
  exists w',
    ARCHIPACK_OT_snap.modal move_first_code (snapshot idle_world) esc user_dragged_world
    = Returned FINISHED w' /\
    SnapStore.placeloc (store w') = Vec 4 5 6 /\
    bpy.location_of user_dragged_world 2%nat = Vec 7 7 7.
Proof.
  split; [vm_compute; reflexivity|]. split; [left; reflexivity|].
  destruct (cancel_leaves_placeloc move_first_code (snapshot idle_world) esc
              user_dragged_world)
    as (cb & w_call & Hcb & _ & _ & _ & _ & _ & _ & Hquiet);
    [vm_compute; reflexivity|left; reflexivity|].
  vm_compute in Hcb. injection Hcb as <-.
  destruct (Hquiet (or_introl (move_first_code_quiet _ _ _ _))) as (w' & Hmodal & _ & Hpl & _).
  exists w'. split; [exact Hmodal|]. split; [|vm_compute; reflexivity].
  rewrite Hpl. vm_compute. reflexivity.
Defined.

(** ** The delta *)

(** C7: in every world, hence at every point during and after a session,
    the session's delta is its place location minus its take location,
    read from the helper while there is one and from the store otherwise;
    what a callback is shown satisfies the same equation.  Whenever a
    modal step returns, whatever the caller's code did, the delta is the
    stored [placeloc] minus the stored [takeloc].  After a modal step that
    ends a running session whose callback returns and keeps the instance,
    the store, the place of the helper and what [exit] needs, the module's
    own [dumb_callback] among them, the step has returned [FINISHED], the
    take location is what it was, and on success the delta is the helper's
    last position minus the take location. *)
Theorem delta_is_placeloc_minus_takeloc :
  (forall w,
     ArchipackSnapBase.delta w
     = vsub (ArchipackSnapBase.placeloc w) (ArchipackSnapBase.takeloc w)) /\
  (forall w,
     ArchipackSnapBase.delta w
     = vsub (match SnapStore.helper (store w) with
             | Some h => bpy.location_of w h
             | None => SnapStore.placeloc (store w)
             end)
            (SnapStore.takeloc (store w))) /\
  (forall w,
     sv_delta (ArchipackSnapBase.session_view w)
     = vsub (sv_placeloc (ArchipackSnapBase.session_view w))
            (sv_takeloc (ArchipackSnapBase.session_view w))) /\
  (forall code self event w st w',
     ARCHIPACK_OT_snap.modal code self event w = Returned st w' ->
     ArchipackSnapBase.delta w'
     = vsub (SnapStore.placeloc (store w')) (SnapStore.takeloc (store w'))) /\
  (forall code self event w,
     running self w = true ->
     exists h cb,
       SnapStore.helper (store w) = Some h /\
       SnapStore.callback (store w) = Some cb /\
       ((forall w_call, exists w_cb,
           ARCHIPACK_OT_snap.run_hook code cb event (state_of event) self w_call
           = Returned self w_cb /\
           store w_cb = store w_call /\
           exit_ready self w_cb = exit_ready self w_call /\
           (forall r, SnapStore.helper (store w_call) = Some r ->
                      bpy.location_of w_cb r = bpy.location_of w_call r)) ->
        exists w',
          ARCHIPACK_OT_snap.modal code self event w = Returned FINISHED w' /\
          ArchipackSnapBase.delta w'
          = vsub (SnapStore.placeloc (store w')) (SnapStore.takeloc (store w')) /\
          SnapStore.takeloc (store w') = SnapStore.takeloc (store w) /\
          (ARCHIPACK_OT_snap.is_cancel event = false ->
           ArchipackSnapBase.delta w'
           = vsub (bpy.location_of w h) (SnapStore.takeloc (store w)))) /\
       (cb = dumb_callback ->
        exists w',
          ARCHIPACK_OT_snap.modal code self event w = Returned FINISHED w' /\
          ArchipackSnapBase.delta w'
          = vsub (SnapStore.placeloc (store w')) (SnapStore.takeloc (store w')) /\
          SnapStore.takeloc (store w') = SnapStore.takeloc (store w) /\
          (ARCHIPACK_OT_snap.is_cancel event = false ->
           ArchipackSnapBase.delta w'
           = vsub (bpy.location_of w h) (SnapStore.takeloc (store w))))).
Proof.
  split; [reflexivity|]. split; [reflexivity|]. split; [reflexivity|].
  split.
  { intros code self event w st w' Hmodal.
    destruct (modal_returned_clears_helper code self event w st w' Hmodal) as [_ Hnone].
    unfold ArchipackSnapBase.delta, ArchipackSnapBase.placeloc, ArchipackSnapBase.takeloc.
    rewrite Hnone. reflexivity. }
  intros code self event w Hrun.
  destruct (running_bound self w Hrun) as (h & cb & Hh & Hcb).
  pose proof (exit_ready_at_callback self event h cb w Hrun) as Hready.
  assert (Hfin : (forall w_call, exists w_cb,
           ARCHIPACK_OT_snap.run_hook code cb event (state_of event) self w_call
           = Returned self w_cb /\
           store w_cb = store w_call /\
           exit_ready self w_cb = exit_ready self w_call /\
           (forall r, SnapStore.helper (store w_call) = Some r ->
                      bpy.location_of w_cb r = bpy.location_of w_call r)) ->
        exists w',
          ARCHIPACK_OT_snap.modal code self event w = Returned FINISHED w' /\
          ArchipackSnapBase.delta w'
          = vsub (SnapStore.placeloc (store w')) (SnapStore.takeloc (store w')) /\
          SnapStore.takeloc (store w') = SnapStore.takeloc (store w) /\
          (ARCHIPACK_OT_snap.is_cancel event = false ->
           ArchipackSnapBase.delta w'
           = vsub (bpy.location_of w h) (SnapStore.takeloc (store w)))).
  { intros Hkeep.
    destruct (Hkeep (at_callback event h cb w)) as (w_cb & Hr & Hs & Hok & _).
    rewrite Hready in Hok.
    destruct (modal_finishes code self event w h cb self w_cb Hh Hcb Hr Hok)
      as (h' & n & el & tg & pv & ori & w' & _ & _ & _ & _ & _ & _
          & _ & Hmodal & Hst & _).
    exists w'. split; [exact Hmodal|].
    unfold ArchipackSnapBase.delta, ArchipackSnapBase.placeloc, ArchipackSnapBase.takeloc.
    rewrite Hst, Hs. cbn [SnapStore.helper SnapStore.set_helper SnapStore.placeloc
                          SnapStore.takeloc].
    split; [reflexivity|].
    destruct (at_callback_frame event h cb w) as (_ & _ & _ & _ & _ & _ & _ & _ & Htl & _).
    split; [exact Htl|].
    intros Hc. rewrite Htl. unfold at_callback. rewrite Hc. reflexivity. }
  exists h, cb. split; [exact Hh|]. split; [exact Hcb|].
  split; [exact Hfin|].
  intros ->. apply Hfin. intros w_call. exists w_call. repeat split.
Qed.

Lemma delta_is_placeloc_minus_takeloc_witness :
  running (snapshot idle_world) user_dragged_world = true /\
  exists w',
    ARCHIPACK_OT_snap.modal move_first_code (snapshot idle_world) release
      user_dragged_world
    = Returned FINISHED w' /\
    ArchipackSnapBase.delta w' = Vec 3 2 1.
Proof.
  split; [vm_compute; reflexivity|].
  destruct delta_is_placeloc_minus_takeloc as (_ & _ & _ & _ & Hsession).
  destruct (Hsession move_first_code (snapshot idle_world) release user_dragged_world)
    as (h & cb & Hh & Hcb & Hkeep & _); [vm_compute; reflexivity|].
  vm_compute in Hcb. injection Hcb as <-.
  destruct (Hkeep (quiet_keeps_exit _ _ (move_first_code_quiet _ _ _ _)))
    as (w' & Hmodal & _ & _ & Hdelta).
  exists w'. split; [exact Hmodal|].
  rewrite Hdelta by reflexivity.
  vm_compute in Hh. injection Hh as <-. vm_compute. reflexivity.
Defined.

(** ** Acquiring the helper *)

(** C8: [create_helper] returns.  When the registry has an object of the
    reserved name, that object is the helper: the registry keeps its
    length, every other object is untouched, the helper keeps its
    fake-user marks, and it is linked into the scene whether it was linked
    before or not.  Otherwise a new object is appended to the registry
    under the reserved name, marked as fake user, it and its data.  In
    either case the helper's world matrix is the store's helper matrix, the
    helper is selected, it is the scene's active object, and the store
    refers to it. *)
Theorem create_helper_reuses_or_creates w :
  NoDup (ob_name <$> objects w) ->
  exists h o w',
    ArchipackSnapBase.create_helper w = Returned tt w' /\
    SnapStore.helper (store w') = Some h /\
    objects w' !! h = Some o /\
    ob_name o = helper_name /\
    ob_matrix_world o = SnapStore.helper_matrix (store w) /\
    ob_select o = true /\
    ob_linked o = true /\
    active w' = Some h /\
    match list_find (fun o => ob_name o = helper_name) (objects w) with
    | Some (i, o0) =>
        h = i /\
        length (objects w') = length (objects w) /\
        ob_use_fake_user o = ob_use_fake_user o0 /\
        ob_data_use_fake_user o = ob_data_use_fake_user o0 /\
        forall r, r <> h -> objects w' !! r = objects w !! r
    | None =>
        h = length (objects w) /\
        length (objects w') = S (length (objects w)) /\
        ob_use_fake_user o = true /\
        ob_data_use_fake_user o = true
    end.
Proof.
  intros Hnd. rewrite create_helper_effect. unfold with_helper.
  destruct (list_find _ (objects w)) as [[i o0]|] eqn:E.
  - apply list_find_Some in E as (Hi & Hn & _).
    rewrite (scene_find_linked helper_name (objects w) i o0 Hnd Hi Hn).
    exists i, (reused_helper (negb (ob_linked o0)) (SnapStore.helper_matrix (store w)) o0).
    eexists. split; [reflexivity|].
    cbn -[lookup alter fmap helper_name negb].
    rewrite list_lookup_alter_eq, Hi, length_alter.
    split; [reflexivity|]. split; [reflexivity|].
    split; [destruct (ob_linked o0); exact Hn|].
    split; [reflexivity|]. split; [reflexivity|].
    split; [destruct (ob_linked o0) eqn:Hl; cbn; rewrite ?Hl; reflexivity|].
    split; [destruct (ob_linked o0); reflexivity|].
    split; [reflexivity|]. split; [reflexivity|].
    split; [destruct (ob_linked o0); reflexivity|].
    split; [destruct (ob_linked o0); reflexivity|].
    intros r Hr. apply list_lookup_alter_ne. congruence.
  - exists (length (objects w)), (created_helper (SnapStore.helper_matrix (store w))).
    eexists. split; [reflexivity|].
    cbn -[lookup alter fmap helper_name].
    rewrite lookup_added, length_app, length_fmap.
    repeat (split; [reflexivity|]).
    split; [cbn; lia|]. split; reflexivity.
Qed.

Lemma create_helper_reuses_or_creates_witness :
  NoDup (ob_name <$> [cube; stale_helper]) /\
  exists w',
    ArchipackSnapBase.create_helper (sample_world [cube; stale_helper] (Some 0%nat) "VIEW_3D")
    = Returned tt w' /\
    SnapStore.helper (store w') = Some 1%nat /\
    length (objects w') = 2%nat.
Proof.
  assert (Hnd : NoDup (ob_name <$> [cube; stale_helper])).
  { apply (bool_decide_unpack _). vm_compute. exact I. }
  split; [exact Hnd|].
  destruct (create_helper_reuses_or_creates
              (sample_world [cube; stale_helper] (Some 0%nat) "VIEW_3D") Hnd)
    as (h & o & w' & Hret & Hh & _ & _ & _ & _ & _ & _ & Hcase).
  exists w'. split; [exact Hret|].
  change (list_find (fun o => ob_name o = helper_name)
            (objects (sample_world [cube; stale_helper] (Some 0%nat) "VIEW_3D")))
    with (Some (1%nat, stale_helper)) in Hcase.
  destruct Hcase as (-> & Hlen & _). split; [exact Hh|exact Hlen].
Defined.

(** ** A session gives the context back *)




(** * Further properties *)

(** ** The helper's life *)

(** X1: [create_helper] never raises, whatever the registry and the scene
    hold: the guard on the scene lookup keeps [link] from an object that is
    linked.  It leaves the store referring to a helper that sits at the
    translation of the store's helper matrix, and touches nothing but the
    objects, the active object and that reference. *)
Theorem create_helper_never_raises :
  forall w,
  exists h w',
    ArchipackSnapBase.create_helper w = Returned tt w' /\
    store w' = SnapStore.set_helper (Some h) (store w) /\
    bpy.location_of w' h = translation (SnapStore.helper_matrix (store w)) /\
    tool_settings w' = tool_settings w /\
    space_data w' = space_data w /\
    draw_handlers w' = draw_handlers w /\
    modal_handlers w' = modal_handlers w /\
    log w' = log w.
Proof.
  intros w.
  destruct (with_helper_frame w) as (h & Hs & Hl & Hts & Hsd & _ & Hdh & Hmh & _ & Hlog).
  exists h, (with_helper w).
  split; [apply create_helper_effect|].
  repeat (split; [assumption|]). assumption.
Qed.

(** X2: [destroy_helper] twice in a row does what [destroy_helper] does
    once: the second call finds no helper and does nothing, and a failure
    of the first is the failure of both. *)
Theorem destroy_helper_twice :
  forall w,
    (let! _ := ArchipackSnapBase.destroy_helper in ArchipackSnapBase.destroy_helper) w
    = ArchipackSnapBase.destroy_helper w.
Proof.
  intros w. unfold bind at 1.
  unfold ArchipackSnapBase.destroy_helper at 1 3.
  unfold bind at 1 3. unfold gets.
  destruct (SnapStore.helper (store w)) as [h|] eqn:Hh.
  - unfold bind, bpy.scene_objects_unlink, modify.
    destruct (bpy.is_linked w h); [|reflexivity].
    unfold ArchipackSnapBase.destroy_helper, bind, gets.
    destruct (bool_decide (active w = Some h)); reflexivity.
  - unfold ret, ArchipackSnapBase.destroy_helper, bind, gets. rewrite Hh. reflexivity.
Qed.

(** X3: [destroy_helper] on a helper that is in the scene unlinks it and
    forgets it, and does not delete it: the registry keeps its length, the
    helper keeps every attribute but its place in the scene, and no other
    object changes. *)
Theorem destroy_helper_unlinks_only w h :
  SnapStore.helper (store w) = Some h ->
  bpy.is_linked w h = true ->
  exists w',
    ArchipackSnapBase.destroy_helper w = Returned tt w' /\
    SnapStore.helper (store w') = None /\
    length (objects w') = length (objects w) /\
    objects w' !! h = bpy.obj_set_linked false <$> objects w !! h /\
    bpy.is_linked w' h = false /\
    (forall r, r <> h -> objects w' !! r = objects w !! r) /\
    draw_handlers w' = draw_handlers w /\
    log w' = log w.
Proof.
  intros Hh Hlk.
  unfold ArchipackSnapBase.destroy_helper, bind, gets. rewrite Hh.
  unfold bpy.scene_objects_unlink. rewrite Hlk. unfold modify.
  eexists. split; [reflexivity|].
  assert (Hlookup : alter (bpy.obj_set_linked false) h (objects w) !! h
                    = bpy.obj_set_linked false <$> objects w !! h)
    by apply list_lookup_alter_eq.
  destruct (bool_decide (active w = Some h));
    cbn -[lookup alter fmap]; unfold bpy.is_linked; cbn -[lookup alter fmap];
    rewrite length_alter, Hlookup;
    (split; [reflexivity|]); (split; [reflexivity|]); (split; [reflexivity|]);
    (split; [destruct (objects w !! h); reflexivity|]);
    (split; [intros r Hr; apply list_lookup_alter_ne; congruence|]);
    split; reflexivity.
Qed.

Lemma destroy_helper_unlinks_only_witness :
  SnapStore.helper (store started_world) = Some 2%nat /\
  bpy.is_linked started_world 2%nat = true /\
  exists w',
    ArchipackSnapBase.destroy_helper started_world = Returned tt w' /\
    length (objects w') = 3%nat.
Proof.
  split; [vm_compute; reflexivity|]. split; [vm_compute; reflexivity|].
  destruct (destroy_helper_unlinks_only started_world 2%nat)
    as (w' & Hret & _ & Hlen & _); [vm_compute; reflexivity..|].
  exists w'. split; [exact Hret|]. rewrite Hlen. vm_compute. reflexivity.
Defined.

(** ** Beginning a session *)

Lemma positions_single (l : list Object) k i :
  (forall r, selected_at l r = bool_decide (r = k)) ->
  (k < length l)%nat ->
  bpy.positions_from bpy.is_selected l i = [(i + k)%nat].
Proof.
  revert k i. induction l as [|o l IH]; intros k i Hsel Hlt; [cbn in Hlt; lia|].
  cbn [bpy.positions_from].
  pose proof (Hsel 0%nat) as H0. unfold selected_at in H0. cbn in H0.
  assert (Htail : forall r, selected_at l r = bool_decide (S r = k)).
  { intros r. exact (Hsel (S r)). }
  destruct k as [|k].
  - rewrite H0. cbn. rewrite Nat.add_0_r. f_equal.
    rewrite (positions_ext l [] (S i)); [reflexivity|].
    intros r. rewrite Htail. unfold selected_at. rewrite lookup_nil.
    apply bool_decide_eq_false_2. lia.
  - rewrite H0. rewrite bool_decide_eq_false_2 by lia.
    rewrite (IH k (S i)).
    + f_equal. lia.
    + intros r. rewrite Htail. apply bool_decide_ext. lia.
    + cbn in Hlt. lia.
Qed.

Lemma is_selected_deselect o : bpy.is_selected (bpy.deselect_linked o) = false.
Proof.
  unfold bpy.is_selected, bpy.deselect_linked.
  destruct (ob_linked o) eqn:E; cbn; rewrite E; reflexivity.
Qed.

(** X4: with the draw hook bound and object names unique, [init] returns
    and leaves the helper as the only selected object and the active one;
    the view's orientation is the store's, tool settings and pivot are
    untouched, one draw handler is added for the store's draw hook, and
    the instance holds the selection, active object and settings the
    context had before. *)
Theorem init_selects_only_helper self event w d :
  SnapStore.draw (store w) = Some d ->
  NoDup (ob_name <$> objects w) ->
  exists h n self' w',
    ArchipackSnapBase.init self event w = Returned self' w' /\
    SnapStore.helper (store w') = Some h /\
    bpy.selected_objects w' = [h] /\
    active w' = Some h /\
    sd_transform_orientation (space_data w')
      = SnapStore.transform_orientation (store w) /\
    sd_pivot_point (space_data w') = sd_pivot_point (space_data w) /\
    tool_settings w' = tool_settings w /\
    draw_handlers w' = draw_handlers w ++ [(n, d)] /\
    Self._draw_handler self' = Some n /\
    Self.sel self' = bpy.selected_objects w /\
    Self.act self' = active w /\
    Self.use_snap self' = ts_use_snap (tool_settings w) /\
    Self.snap_element self' = Some (ts_snap_element (tool_settings w)) /\
    Self.snap_target self' = Some (ts_snap_target (tool_settings w)) /\
    Self.pivot_point self' = Some (sd_pivot_point (space_data w)) /\
    Self.transform_orientation self'
      = Some (sd_transform_orientation (space_data w)).
Proof.
  intros Hd Hnd.
  destruct (begun_helper d w)
    as (h & o & _ & Hh & Ho & _ & Hsel & _ & _ & Hlinked & Hothers).
  destruct (Hlinked Hnd) as [Hlk Hact].
  destruct (begun_frame d w) as (_ & _ & _ & _ & _ & Hts & Hsd & Hdh & _).
  exists h, (bpy.fresh_handle (draw_handlers w)), (snapshot w), (begun d w).
  split; [apply init_effect; exact Hd|].
  split; [exact Hh|].
  split.
  { unfold bpy.selected_objects.
    rewrite (positions_single _ h 0%nat); [reflexivity| |].
    - intros r. unfold selected_at.
      destruct (decide (r = h)) as [->|Hne].
      + rewrite Ho. unfold bpy.is_selected. rewrite Hlk, Hsel.
        symmetry. apply bool_decide_eq_true_2. reflexivity.
      + rewrite (Hothers r Hne), bool_decide_eq_false_2 by assumption.
        destruct (objects w !! r); cbn; [apply is_selected_deselect|reflexivity].
    - apply lookup_lt_is_Some. eauto. }
  split; [exact Hact|].
  rewrite Hsd, Hts, Hdh. repeat split.
Qed.

Lemma init_selects_only_helper_witness :
  SnapStore.draw (store idle_world) = Some dumb_draw /\
  NoDup (ob_name <$> objects idle_world) /\
  exists self' w',
    ArchipackSnapBase.init Self.__init__ release idle_world = Returned self' w' /\
    bpy.selected_objects idle_world = [0%nat] /\
    bpy.selected_objects w' = [2%nat].
Proof.
  assert (Hnd : NoDup (ob_name <$> objects idle_world)).
  { apply (bool_decide_unpack _). vm_compute. exact I. }
  split; [reflexivity|]. split; [exact Hnd|].
  destruct (init_selects_only_helper Self.__init__ release idle_world dumb_draw eq_refl Hnd)
    as (h & n & self' & w' & Hinit & Hh & Hsel & _).
  exists self', w'. split; [exact Hinit|]. split; [vm_compute; reflexivity|].
  rewrite Hsel. f_equal.
  rewrite (init_effect Self.__init__ release idle_world dumb_draw eq_refl) in Hinit.
  injection Hinit as _ <-. vm_compute in Hh. congruence.
Defined.

(** X5: when the store's draw hook is not bound (the operator is invoked
    without [snap_point]), [init] raises at the registration of the draw
    hook, after the helper was acquired: the selection is already cleared,
    the store refers to a helper, the view's orientation is overwritten,
    and no draw handler is added. *)
Theorem init_raises_late_without_draw_hook self event w :
  SnapStore.draw (store w) = None ->
  exists e h w',
    ArchipackSnapBase.init self event w = Raised e w' /\
    SnapStore.helper (store w') = Some h /\
    sd_transform_orientation (space_data w')
      = SnapStore.transform_orientation (store w) /\
    draw_handlers w' = draw_handlers w /\
    (forall r, r <> h -> selected_at (objects w') r = false).
Proof.
  intros Hd. unfold ArchipackSnapBase.init.
  unfold bind at 1. unfold gets at 1.
  unfold bind at 1. unfold bpy.active_object, gets at 1.
  unfold bind at 1. unfold bpy.ops_object_select_all_DESELECT, modify.
  do 5 (unfold bind at 1; unfold gets at 1).
  unfold bind at 1. rewrite create_helper_effect.
  unfold bind at 1. unfold ArchipackSnapBase.set_transform_orientation.
  unfold bind at 1. unfold gets at 1. unfold modify.
  unfold bind at 1. unfold gets at 1.
  set (w0 := with_objects (fmap bpy.deselect_linked) w).
  destruct (with_helper_frame w0) as (h & Hs & _ & _ & _ & _ & Hdh & _).
  assert (Hdraw : SnapStore.draw (store (with_helper w0)) = None).
  { rewrite Hs. exact Hd. }
  unfold bind, bpy.draw_handler_add.
  cbn [store with_space_data]. rewrite Hdraw.
  destruct (begun_helper dumb_draw w)
    as (h' & o & _ & Hh & _ & _ & _ & _ & _ & _ & Hothers).
  exists TypeError, h'. eexists. split; [reflexivity|].
  unfold begun in Hh, Hothers. fold w0 in Hh, Hothers.
  cbn [store objects with_draw_handlers with_space_data] in Hh, Hothers.
  cbn [store objects space_data draw_handlers with_space_data
       bpy.set_transform_orientation sd_transform_orientation].
  split; [exact Hh|]. rewrite Hs, Hdh.
  split; [reflexivity|]. split; [reflexivity|].
  intros r Hr. unfold selected_at. rewrite (Hothers r Hr).
  destruct (objects w !! r); cbn; [apply is_selected_deselect|reflexivity].
Qed.

Lemma init_raises_late_without_draw_hook_witness :
  let w := mkWorld SnapStore.initial [cube; lamp] (Some 0%nat)
             (mkTool false "INCREMENT" "CLOSEST") (mkSpace "MEDIAN_POINT" GLOBAL)
             "VIEW_3D" [] [] release [] in
  SnapStore.draw (store w) = None /\
  exists e w',
    ArchipackSnapBase.init Self.__init__ release w = Raised e w' /\
    SnapStore.helper (store w') = Some 2%nat.
Proof.
  cbv zeta. split; [reflexivity|].
  destruct (init_raises_late_without_draw_hook Self.__init__ release
              (mkWorld SnapStore.initial [cube; lamp] (Some 0%nat)
                 (mkTool false "INCREMENT" "CLOSEST") (mkSpace "MEDIAN_POINT" GLOBAL)
                 "VIEW_3D" [] [] release []) eq_refl)
    as (e & h & w' & Hinit & Hh & _).
  exists e, w'. split; [exact Hinit|].
  vm_compute in Hinit. injection Hinit as _ <-. vm_compute. reflexivity.
Defined.

(** ** The modal step outside a healthy session *)

(** X6: a confirming event (neither [ESC] nor [RIGHTMOUSE]) that reaches
    [modal] while the store refers to no helper raises an attribute error
    on [SnapStore.helper.location]: a redraw was requested and nothing
    else happened; the callback is not called, the stored [placeloc] is
    not written, and [exit] does not run. *)
Theorem modal_confirm_without_helper code self event w :
  SnapStore.helper (store w) = None ->
  ~ (ev_type event = "ESC"%string \/ ev_type event = "RIGHTMOUSE"%string) ->
  ARCHIPACK_OT_snap.modal code self event w = Raised AttributeError (emit TagRedraw w) /\
  hook_calls (log (emit TagRedraw w)) = hook_calls (log w) /\
  store (emit TagRedraw w) = store w.
Proof.
  intros Hh Hc.
  assert (ARCHIPACK_OT_snap.is_cancel event = false) as E.
  { destruct (ARCHIPACK_OT_snap.is_cancel event) eqn:E; [|reflexivity].
    apply is_cancel_true in E. contradiction. }
  split; [|split; [|reflexivity]].
  - unfold ARCHIPACK_OT_snap.modal.
    unfold bind at 1. unfold bpy.area_tag_redraw, modify.
    unfold bind at 1. rewrite E.
    unfold bind at 1. unfold gets. cbn [store emit]. rewrite Hh. reflexivity.
  - cbn [log emit]. unfold hook_calls. rewrite List.filter_app. cbn.
    apply app_nil_r.
Qed.

Lemma modal_confirm_without_helper_witness :
  SnapStore.helper (store idle_world) = None /\
  ~ (ev_type release = "ESC"%string \/ ev_type release = "RIGHTMOUSE"%string) /\
  ARCHIPACK_OT_snap.modal move_first_code Self.__init__ release idle_world
  = Raised AttributeError (emit TagRedraw idle_world).
Proof.
  assert (Hc : ~ (ev_type release = "ESC"%string \/ ev_type release = "RIGHTMOUSE"%string)).
  { intros [H|H]; discriminate. }
  split; [reflexivity|]. split; [exact Hc|].
  exact (proj1 (modal_confirm_without_helper move_first_code Self.__init__ release
                  idle_world eq_refl Hc)).
Defined.

(** X7: when the store's callback is not bound, [modal] raises a type
    error at the call and [exit] never runs: the helper stays referenced
    and in the scene, the draw handlers stay registered and the context is
    not written back.  On the confirming path the stored [placeloc] has
    by then been overwritten with the helper's position. *)
Theorem modal_unbound_callback_skips_exit code self event w h :
  SnapStore.callback (store w) = None ->
  SnapStore.helper (store w) = Some h ->
  exists w',
    ARCHIPACK_OT_snap.modal code self event w = Raised TypeError w' /\
    SnapStore.helper (store w') = Some h /\
    objects w' = objects w /\
    active w' = active w /\
    draw_handlers w' = draw_handlers w /\
    tool_settings w' = tool_settings w /\
    space_data w' = space_data w /\
    hook_calls (log w') = hook_calls (log w) /\
    SnapStore.placeloc (store w')
    = (if ARCHIPACK_OT_snap.is_cancel event then SnapStore.placeloc (store w)
       else bpy.location_of w h).
Proof.
  intros Hcb Hh.
  assert (Hlog : hook_calls (log w ++ [TagRedraw]) = hook_calls (log w)).
  { unfold hook_calls. rewrite List.filter_app. cbn. apply app_nil_r. }
  unfold ARCHIPACK_OT_snap.modal.
  unfold bind at 1. unfold bpy.area_tag_redraw, modify.
  unfold bind at 1.
  destruct (ARCHIPACK_OT_snap.is_cancel event).
  - unfold ARCHIPACK_OT_snap.call_callback. cbn [store emit]. rewrite Hcb.
    eexists. split; [reflexivity|]. cbn [store emit objects active draw_handlers
      tool_settings space_data log].
    repeat (split; [first [assumption | reflexivity]|]). reflexivity.
  - unfold bind at 1. unfold gets. cbn [store emit]. rewrite Hh.
    unfold bind at 1. unfold modify.
    unfold ARCHIPACK_OT_snap.call_callback.
    cbn [store with_store emit SnapStore.callback SnapStore.set_placeloc].
    rewrite Hcb.
    eexists. split; [reflexivity|].
    cbn [store with_store emit objects active draw_handlers tool_settings space_data
         log SnapStore.helper SnapStore.placeloc SnapStore.set_placeloc].
    repeat (split; [first [assumption | reflexivity]|]). reflexivity.
Qed.

Lemma modal_unbound_callback_skips_exit_witness :
  let w := with_store (SnapStore.set_callback None) dragged_world in
  SnapStore.callback (store w) = None /\
  SnapStore.helper (store w) = Some 2%nat /\
  exists w',
    ARCHIPACK_OT_snap.modal move_first_code (snapshot idle_world) release w
    = Raised TypeError w' /\
    bpy.is_linked w' 2%nat = true /\
    SnapStore.placeloc (store w') = Vec 7 7 7.
Proof.
  cbv zeta. split; [reflexivity|]. split; [vm_compute; reflexivity|].
  destruct (modal_unbound_callback_skips_exit move_first_code (snapshot idle_world) release
              (with_store (SnapStore.set_callback None) dragged_world) 2%nat)
    as (w' & Hmodal & _ & Hobj & _ & _ & _ & _ & _ & Hpl);
    [reflexivity|vm_compute; reflexivity|].
  exists w'. split; [exact Hmodal|]. split.
  - unfold bpy.is_linked. rewrite Hobj. vm_compute. reflexivity.
  - rewrite Hpl. vm_compute. reflexivity.
Defined.

(** ** Starting the operator *)

(** In a 3D viewport [invoke] registers the instance and starts the drag. *)
Lemma invoke_view3d_session self event w d :
  area_type w = "VIEW_3D"%string ->
  SnapStore.draw (store w) = Some d ->
  exists op w',
    ARCHIPACK_OT_snap.invoke self event w = Returned RUNNING_MODAL w' /\
    modal_handlers w' = modal_handlers w ++ [op] /\
    Self.sel op = bpy.selected_objects w /\
    Self.act op = active w /\
    log w' = log w ++ [TranslateInvoke (SnapStore.constraint_axis (store w))
                                       (SnapStore.transform_orientation (store w))
                                       true] /\
    (NoDup (ob_name <$> objects w) ->
     SnapStore.callback (store w) <> None ->
     running op w' = true).
Proof.
  intros Harea Hd.
  exists (snapshot w), (invoked d w).
  split; [apply invoke_view3d; assumption|].
  destruct (begun_frame d w) as (Hcb & _ & _ & _ & _ & _ & _ & Hdh & Hmh & Hlog).
  unfold invoked. cbn [modal_handlers log emit with_modal_handlers].
  rewrite Hmh, Hlog.
  repeat (split; [reflexivity|]).
  intros Hnd Hbound.
  destruct (begun_helper d w)
    as (h & o & _ & Hh & Ho & _ & _ & _ & _ & Hlinked & _).
  destruct (Hlinked Hnd) as [Hlk _].
  unfold running, snapshot, bpy.is_linked.
  cbn [Self._draw_handler Self.snap_element Self.snap_target Self.pivot_point
       Self.transform_orientation store objects draw_handlers emit with_modal_handlers].
  rewrite Hcb, Hh, Ho, Hlk, Hdh, has_fresh_handle.
  destruct (SnapStore.callback (store w)); [reflexivity|contradiction].
Qed.

(** X8: invoked in a 3D viewport with the draw hook bound, the operator
    returns [RUNNING_MODAL]: it registered itself as the one new modal
    handler, holding the context it saved, and handed the drag to the
    host's translate with the store's constraint axes and orientation and
    with [release_confirm] set; no hook was called.  With unique object
    names and the callback bound, the registered instance is a running
    session. *)
Theorem invoke_in_view3d self event w d :
  area_type w = "VIEW_3D"%string ->
  SnapStore.draw (store w) = Some d ->
  exists op w',
    ARCHIPACK_OT_snap.invoke self event w = Returned RUNNING_MODAL w' /\
    modal_handlers w' = modal_handlers w ++ [op] /\
    Self.sel op = bpy.selected_objects w /\
    Self.act op = active w /\
    log w' = log w ++ [TranslateInvoke (SnapStore.constraint_axis (store w))
                                       (SnapStore.transform_orientation (store w))
                                       true] /\
    (NoDup (ob_name <$> objects w) ->
     SnapStore.callback (store w) <> None ->
     running op w' = true).
Proof.
  intros Harea Hd.
  exists (snapshot w), (invoked d w).
  split; [apply invoke_view3d; assumption|].
  destruct (begun_frame d w) as (Hcb & _ & _ & _ & _ & _ & _ & Hdh & Hmh & Hlog).
  unfold invoked. cbn [modal_handlers log emit with_modal_handlers].
  rewrite Hmh, Hlog.
  repeat (split; [reflexivity|]).
  intros Hnd Hbound.
  destruct (begun_helper d w)
    as (h & o & _ & Hh & Ho & _ & _ & _ & _ & Hlinked & _).
  destruct (Hlinked Hnd) as [Hlk _].
  unfold running, snapshot, bpy.is_linked.
  cbn [Self._draw_handler Self.snap_element Self.snap_target Self.pivot_point
       Self.transform_orientation store objects draw_handlers emit with_modal_handlers].
  rewrite Hcb, Hh, Ho, Hlk, Hdh, has_fresh_handle.
  destruct (SnapStore.callback (store w)); [reflexivity|contradiction].
Qed.

Lemma invoke_in_view3d_witness :
  area_type idle_world = "VIEW_3D"%string /\
  SnapStore.draw (store idle_world) = Some dumb_draw /\
  exists w', ARCHIPACK_OT_snap.invoke Self.__init__ release idle_world
             = Returned RUNNING_MODAL w'.
Proof.
  split; [reflexivity|]. split; [reflexivity|].
  destruct (invoke_in_view3d Self.__init__ release idle_world dumb_draw eq_refl eq_refl)
    as (op & w' & Hinv & _).
  exists w'. exact Hinv.
Defined.

(** ** The entry function, end to end *)

Lemma store_begun d w :
  exists h, store (begun d w) = SnapStore.set_helper (Some h) (store w).
Proof.
  destruct (with_helper_frame (with_objects (fmap bpy.deselect_linked) w))
    as (h & Hs & _).
  exists h. unfold begun. cbn [store with_draw_handlers with_space_data].
  rewrite Hs. reflexivity.
Qed.

Lemma snap_point_store tl d cb tm axis ori mode w loc m ori' :
  located tl tm ori = Some (loc, m, ori') ->
  exists hr w',
    snap_point tl d cb tm axis ori mode w = Returned tt w' /\
    store w' = SnapStore.mk (Some cb) (Some d) hr loc loc axis m ori' (Some mode).
Proof.
  intros Hloc. rewrite (snap_point_unfold _ _ _ _ _ _ _ _ _ _ _ Hloc).
  set (wc := configured d cb axis mode loc m ori' w).
  unfold bind at 1. unfold ops_archipack_snap_INVOKE_DEFAULT.
  unfold bind at 1. unfold gets at 1.
  destruct (decide (area_type wc = "VIEW_3D"%string)) as [Harea|Harea].
  - rewrite (invoke_view3d _ _ wc d Harea eq_refl).
    destruct (store_begun d wc) as (h & Hs).
    exists (Some h). eexists. split; [reflexivity|].
    unfold invoked. cbn [store emit with_modal_handlers]. rewrite Hs. reflexivity.
  - rewrite (invoke_elsewhere _ _ wc Harea).
    exists (SnapStore.helper (store w)). eexists. split; reflexivity.
Qed.

(** X9: a call of [snap_point] with a point and no matrix returns with the
    store holding exactly what the caller passed: the callback, the draw
    hook, the point as take and place location, the constraint axes, the
    translation matrix of the point as helper matrix, the orientation as
    passed, and the mode; with a matrix the same holds with the matrix as
    helper matrix, its translation as location and [LOCAL] as orientation.
    Only the helper reference is left to the operator. *)
Theorem snap_point_stores_arguments :
  (forall t draw callback constraint_axis transform_orientation mode w,
   exists hr w',
     snap_point (Some t) draw callback None constraint_axis transform_orientation mode w
     = Returned tt w' /\
     store w' = SnapStore.mk (Some callback) (Some draw) hr t t constraint_axis
                             (Matrix_Translation t) transform_orientation (Some mode)) /\
  (forall takeloc m draw callback constraint_axis transform_orientation mode w,
   exists hr w',
     snap_point takeloc draw callback (Some m) constraint_axis transform_orientation
                mode w = Returned tt w' /\
     store w' = SnapStore.mk (Some callback) (Some draw) hr (translation m)
                             (translation m) constraint_axis m LOCAL (Some mode)).
Proof.
  split; intros.
  - apply snap_point_store. reflexivity.
  - apply snap_point_store. reflexivity.
Qed.


(** X10: in a 3D viewport, with unique object names, a call of
    [snap_point] that is given a point or a matrix leaves a running
    session: exactly one modal handler was added, it holds the selection
    and active object of before the call, it is [running], and the one
    host call logged is the translate, invoked with the caller's
    constraint axes and with the orientation the store settled on. *)
Theorem snap_point_starts_running_session :
  forall takeloc draw callback takemat constraint_axis transform_orientation mode w,
  area_type w = "VIEW_3D"%string ->
  NoDup (ob_name <$> objects w) ->
  takeloc <> None \/ takemat <> None ->
  exists op w',
    snap_point takeloc draw callback takemat constraint_axis transform_orientation mode w
    = Returned tt w' /\
    modal_handlers w' = modal_handlers w ++ [op] /\
    running op w' = true /\
    Self.sel op = bpy.selected_objects w /\
    Self.act op = active w /\
    log w' = log w ++ [TranslateInvoke constraint_axis
                         (match takemat with Some _ => LOCAL | None => transform_orientation end)
                         true].
Proof.
  intros tl d cb tm axis ori mode w Harea Hnd Hgiven.
  assert (exists loc m, located tl tm ori
            = Some (loc, m, match tm with Some _ => LOCAL | None => ori end))
    as (loc & m & Hloc).
  { unfold located. destruct tm as [m|]; [eauto|].
    destruct tl as [t|]; [eauto|]. destruct Hgiven; contradiction. }
  rewrite (snap_point_unfold _ _ _ _ _ _ _ _ _ _ _ Hloc).
  set (wc := configured d cb axis mode loc m _ w).
  unfold bind at 1. unfold ops_archipack_snap_INVOKE_DEFAULT.
  unfold bind at 1. unfold gets at 1.
  destruct (invoke_view3d_session Self.__init__ (window_event wc) wc d Harea eq_refl)
    as (op & w' & Hinv & Hmh & Hsel & Hact & Hlog & Hrun).
  rewrite Hinv. exists op, w'. split; [reflexivity|].
  split; [exact Hmh|].
  split; [apply Hrun; [exact Hnd|discriminate]|].
  split; [exact Hsel|]. split; [exact Hact|]. exact Hlog.
Qed.

Lemma snap_point_starts_running_session_witness :
  area_type idle_world = "VIEW_3D"%string /\
  NoDup (ob_name <$> objects idle_world) /\
  (Some (Vec 4 5 6) <> None \/ @None Matrix <> None) /\
  exists op w',
    snap_point (Some (Vec 4 5 6)) dumb_draw dumb_callback None
               default_constraint_axis GLOBAL default_mode idle_world = Returned tt w' /\
    running op w' = true.
Proof.
  assert (Hnd : NoDup (ob_name <$> objects idle_world)).
  { apply (bool_decide_unpack _). vm_compute. exact I. }
  split; [reflexivity|]. split; [exact Hnd|]. split; [left; discriminate|].
  destruct (snap_point_starts_running_session (Some (Vec 4 5 6)) dumb_draw dumb_callback
              None default_constraint_axis GLOBAL default_mode idle_world eq_refl Hnd)
    as (op & w' & Hret & _ & Hrun & _); [left; discriminate|].
  exists op, w'. split; assumption.
Defined.

(** X11: outside a 3D viewport a call of [snap_point] that is given a
    point or a matrix returns without an exception and without a session:
    the only trace is the operator's warning; no hook is called, no modal
    or draw handler is added, the registry, the helper reference and the
    context are untouched. *)
Theorem snap_point_outside_view3d :
  forall takeloc draw callback takemat constraint_axis transform_orientation mode w,
  area_type w <> "VIEW_3D"%string ->
  takeloc <> None \/ takemat <> None ->
  exists w',
    snap_point takeloc draw callback takemat constraint_axis transform_orientation mode w
    = Returned tt w' /\
    log w' = log w ++ [Report "WARNING" "View3D not found, cannot run operator"] /\
    hook_calls (log w') = hook_calls (log w) /\
    modal_handlers w' = modal_handlers w /\
    draw_handlers w' = draw_handlers w /\
    objects w' = objects w /\
    SnapStore.helper (store w') = SnapStore.helper (store w) /\
    context_view w' = context_view w.
Proof.
  intros tl d cb tm axis ori mode w Harea Hgiven.
  assert (exists loc m ori', located tl tm ori = Some (loc, m, ori'))
    as (loc & m & ori' & Hloc).
  { unfold located. destruct tm as [m|]; [eauto|].
    destruct tl as [t|]; [eauto|]. destruct Hgiven; contradiction. }
  rewrite (snap_point_unfold _ _ _ _ _ _ _ _ _ _ _ Hloc).
  set (wc := configured d cb axis mode loc m ori' w).
  unfold bind at 1. unfold ops_archipack_snap_INVOKE_DEFAULT.
  unfold bind at 1. unfold gets at 1.
  rewrite (invoke_elsewhere _ _ wc Harea).
  eexists. split; [reflexivity|].
  split; [reflexivity|].
  split.
  { cbn [log emit]. unfold hook_calls. rewrite List.filter_app. cbn. apply app_nil_r. }
  repeat split.
Qed.

Lemma snap_point_outside_view3d_witness :
  area_type (sample_world [cube; lamp] (Some 0%nat) "PROPERTIES") <> "VIEW_3D"%string /\
  (Some (Vec 4 5 6) <> None \/ @None Matrix <> None) /\
  exists w',
    snap_point (Some (Vec 4 5 6)) dumb_draw dumb_callback None
               default_constraint_axis GLOBAL default_mode
               (sample_world [cube; lamp] (Some 0%nat) "PROPERTIES") = Returned tt w' /\
    objects w' = [cube; lamp].
Proof.
  split; [discriminate|]. split; [left; discriminate|].
  destruct (snap_point_outside_view3d (Some (Vec 4 5 6)) dumb_draw dumb_callback None
              default_constraint_axis GLOBAL default_mode
              (sample_world [cube; lamp] (Some 0%nat) "PROPERTIES"))
    as (w' & Hret & _ & _ & _ & _ & Hobj & _); [discriminate|left; discriminate|].
  exists w'. split; assumption.
Defined.

(** ** A whole session *)






Lemma length_of_names (l1 l2 : list Object) :
  (forall r, ob_name <$> l1 !! r = ob_name <$> l2 !! r) -> length l1 = length l2.
Proof.
  intros H. rewrite <- (length_fmap ob_name l1), <- (length_fmap ob_name l2).
  f_equal. apply list_eq. intros r. rewrite !list_lookup_fmap. apply H.
Qed.














(** ** Sessions started by the entry function *)






(** ** From the entry function to the callback *)





(** ** A callback that raises *)



(** ** A callback that changes the selection *)

(** X17: the context a session gives back depends on what the callback
    leaves.  A callback that selects another object returns, [exit] runs
    and the session is [FINISHED], but [exit] only selects again what was
    selected before: the object the callback selected stays selected, and
    the selection after the session is not the selection before it.  A
    callback that empties the selection the instance saved makes [exit]
    select nothing again: the session is [FINISHED] and the object that
    was selected before it is not selected after it. *)
Theorem session_keeps_callback_selection :
  hooks_bound user_world = true /\
  host_invariant user_world = true /\
  helper_at_rest user_world = true /\
  cv_selected_objects (context_view user_world) = [0%nat] /\
  (exists w',
     session selecting_code Self.__init__ release [Drag (Vec 3 2 1)] release user_world
     = Returned FINISHED w' /\
     cv_selected_objects (context_view w') = [0%nat; 1%nat] /\
     cv_active_object (context_view w') = cv_active_object (context_view user_world)) /\
  (exists w',
     session forgetting_code Self.__init__ release [Drag (Vec 3 2 1)] release user_world
     = Returned FINISHED w' /\
     cv_selected_objects (context_view w') = [] /\
     cv_active_object (context_view w') = cv_active_object (context_view user_world)).
Proof.
  split; [vm_compute; reflexivity|].
  split; [vm_compute; reflexivity|].
  split; [vm_compute; reflexivity|].
  split; [vm_compute; reflexivity|].
  split; (eexists; split; [vm_compute; reflexivity|]);
    split; vm_compute; reflexivity.
Qed.
